(** * PharmaFlow inventory ledger: shallow embedding of the controllers

    The controllers talk to PostgreSQL through [transaction(callback)]
    (src/src/config/database.js): BEGIN, run the callback on a client,
    COMMIT on success, ROLLBACK when the callback throws.  We model the
    database as a record of tables (lists of rows), a client callback as a
    state/error computation over it, and [transaction] as the combinator
    that keeps the callback's final state on success and the initial state
    on a throw.  Money columns are rationals, ids, quantities and dates
    (days since an epoch) are integers. *)

From Stdlib Require Import ZArith QArith Qabs List String Bool Lia.
Import ListNotations.
Open Scope string_scope.
Open Scope Z_scope.

(** ** Rows of the tables *)

Inductive inv_status := Active | Expired | Damaged | Recalled.

Definition is_active (s : inv_status) : bool :=
  match s with Active => true | _ => false end.

Record product := mkProduct {
  p_product_id : Z;
  p_is_active : bool;
  p_requires_prescription : bool;
  p_tax_rate : Q;
  p_category_id : option Z
}.

(** A row of [inventory]: one batch. *)
Record batch := mkBatch {
  inventory_id : Z;
  product_id : Z;
  batch_number : string;
  lot_number : string;
  quantity_on_hand : Z;
  quantity_reserved : Z;
  unit_cost : Q;
  expiration_date : Z;
  status : inv_status
}.

(** [quantity_available] is the derived column on_hand - reserved. *)
Definition quantity_available (b : batch) : Z :=
  quantity_on_hand b - quantity_reserved b.

(** A row of [stock_movements]. *)
Record movement := mkMovement {
  m_inventory_id : Z;
  m_product_id : Z;
  movement_type : string;
  quantity_change : Z;
  quantity_before : Z;
  quantity_after : Z;
  reference_id : Z;
  reference_type : string
}.

Record sale := mkSale {
  sale_id : Z;
  total_amount : Q;
  payment_status : string
}.

Record sale_item := mkSaleItem {
  sale_item_id : Z;
  si_sale_id : Z;
  si_product_id : Z;
  si_inventory_id : Z;
  si_quantity : Z;
  si_line_total : Q
}.

Record purchase_order := mkPO {
  po_id : Z;
  po_supplier_id : Z;
  po_status : string
}.

Record po_item := mkPOItem {
  po_item_id : Z;
  poi_po_id : Z;
  poi_product_id : Z;
  quantity_ordered : Z;
  quantity_received : Z;
  poi_unit_cost : Q;
  poi_status : string
}.

Record db := mkDb {
  products : list product;
  inventory : list batch;
  stock_movements : list movement;
  sales : list sale;
  sale_items : list sale_item;
  purchase_orders : list purchase_order;
  purchase_order_items : list po_item
}.

(** ** The client monad and [transaction] *)

Definition client (A : Type) : Type := db -> (string + (A * db)).

Definition ret {A} (a : A) : client A := fun s => inr (a, s).
Definition throw {A} (msg : string) : client A := fun _ => inl msg.
Definition bind {A B} (m : client A) (k : A -> client B) : client B :=
  fun s => match m s with
           | inl e => inl e
           | inr (a, s') => k a s'
           end.
Definition get : client db := fun s => inr (s, s).
Definition put (s : db) : client unit := fun _ => inr (tt, s).

Notation "x <-- m ;; k" := (bind m (fun x => k))
  (at level 61, m at next level, right associativity).
Notation "m ;;; k" := (bind m (fun _ => k))
  (at level 61, right associativity).

(** [transaction(callback)]: COMMIT keeps the callback's state, ROLLBACK
    restores the state seen at BEGIN; the error is rethrown. *)
Definition transaction {A} (callback : client A) (s : db) : (string + A) * db :=
  match callback s with
  | inr (a, s') => (inr a, s')
  | inl e => (inl e, s)
  end.

(** What a controller sends back. *)
Inductive response :=
| Created (id : Z)
| Okay (id : Z)
| Failed (http_status : Z) (message : string).

(** ** Table helpers *)

Definition set_inventory (inv : list batch) (s : db) : db :=
  mkDb (products s) inv (stock_movements s) (sales s) (sale_items s)
       (purchase_orders s) (purchase_order_items s).
Definition set_movements (ms : list movement) (s : db) : db :=
  mkDb (products s) (inventory s) ms (sales s) (sale_items s)
       (purchase_orders s) (purchase_order_items s).
Definition set_sales (l : list sale) (s : db) : db :=
  mkDb (products s) (inventory s) (stock_movements s) l (sale_items s)
       (purchase_orders s) (purchase_order_items s).
Definition set_sale_items (l : list sale_item) (s : db) : db :=
  mkDb (products s) (inventory s) (stock_movements s) (sales s) l
       (purchase_orders s) (purchase_order_items s).
Definition set_purchase_orders (l : list purchase_order) (s : db) : db :=
  mkDb (products s) (inventory s) (stock_movements s) (sales s)
       (sale_items s) l (purchase_order_items s).
Definition set_po_items (l : list po_item) (s : db) : db :=
  mkDb (products s) (inventory s) (stock_movements s) (sales s)
       (sale_items s) (purchase_orders s) l.

Definition with_on_hand (q : Z) (b : batch) : batch :=
  mkBatch (inventory_id b) (product_id b) (batch_number b) (lot_number b)
          q (quantity_reserved b) (unit_cost b) (expiration_date b) (status b).
Definition with_reserved (r : Z) (b : batch) : batch :=
  mkBatch (inventory_id b) (product_id b) (batch_number b) (lot_number b)
          (quantity_on_hand b) r (unit_cost b) (expiration_date b) (status b).

(** [UPDATE inventory SET ... WHERE inventory_id = id]. *)
Definition update_inventory (id : Z) (f : batch -> batch) : client unit :=
  s <-- get ;;
  put (set_inventory
         (map (fun b => if inventory_id b =? id then f b else b) (inventory s)) s).

(** [INSERT INTO stock_movements ...]. *)
Definition insert_movement (m : movement) : client unit :=
  s <-- get ;; put (set_movements (stock_movements s ++ [m]) s).

Definition find_batch (id : Z) (s : db) : option batch :=
  find (fun b => inventory_id b =? id) (inventory s).

(** JavaScript truthiness of the optional request fields used below. *)
Definition truthy_str (o : option string) : bool :=
  match o with Some v => negb (String.eqb v "") | None => false end.
Definition truthy_Q (o : option Q) : bool :=
  match o with Some v => negb (Qeq_bool v 0) | None => false end.
Definition truthy_id (o : option Z) : bool :=
  match o with Some v => negb (v =? 0) | None => false end.

(** ** SalesController.createSale (src/unnamed/part_001) *)

Record sale_line := mkLine {
  productId : Z;
  quantity : Z;
  unitPrice : Q;
  discountPercentage : Q;
  inventoryId : option Z
}.

Record sale_request := mkSaleReq {
  items : list sale_line;
  paymentMethod : option string;
  prescriptionNumber : option string;
  insuranceClaimAmount : Q;
  customerPaymentAmount : option Q
}.

Record processed_item := mkProcessed {
  pi_productId : Z;
  pi_inventoryId : Z;
  pi_quantity : Z;
  pi_unitPrice : Q;
  pi_lineTotal : Q
}.

(** [SELECT ... FROM products p WHERE p.product_id = $1 AND p.is_active]. *)
Definition find_active_product (pid : Z) (s : db) : option product :=
  find (fun p => (p_product_id p =? pid) && p_is_active p) (products s).

(** Pinned batch: [WHERE inventory_id = $1 AND product_id = $2
    AND status = 'active' AND quantity_available >= $3]. *)
Definition select_pinned (id pid qty : Z) (s : db) : option batch :=
  find (fun b => (inventory_id b =? id) && (product_id b =? pid)
                 && is_active (status b) && (qty <=? quantity_available b))
       (inventory s).

(** FIFO: [WHERE product_id = $1 AND status = 'active'
    AND quantity_available >= $2 ORDER BY expiration_date ASC LIMIT 1].
    Rows with equal expiration dates come in table order. *)
Definition fifo_eligible (pid qty : Z) (b : batch) : bool :=
  (product_id b =? pid) && is_active (status b) && (qty <=? quantity_available b).

Fixpoint earliest (best : batch) (l : list batch) : batch :=
  match l with
  | [] => best
  | b :: t =>
      earliest (if expiration_date b <? expiration_date best then b else best) t
  end.

Definition select_fifo (pid qty : Z) (s : db) : option batch :=
  match filter (fifo_eligible pid qty) (inventory s) with
  | [] => None
  | b :: t => Some (earliest b t)
  end.

(** One iteration of the item loop: validate, pick a batch, reserve. *)
Definition process_item (rx : option string) (it : sale_line)
  : client (processed_item * Q * Q) :=
  if (productId it =? 0) || (quantity it <=? 0) then
    throw "Invalid item: productId and positive quantity required"
  else
    s <-- get ;;
    match find_active_product (productId it) s with
    | None => throw "Product not found or inactive"
    | Some p =>
      if p_requires_prescription p && negb (truthy_str rx) then
        throw "Prescription required for product"
      else
        let chosen :=
          if truthy_id (inventoryId it) then
            select_pinned (match inventoryId it with Some i => i | None => 0 end)
                          (productId it) (quantity it) s
          else select_fifo (productId it) (quantity it) s in
        match chosen with
        | None => throw "Insufficient inventory for product"
        | Some b =>
          update_inventory (inventory_id b)
            (fun b' => with_reserved (quantity_reserved b' + quantity it) b') ;;;
          let lineSubtotal := (unitPrice it * inject_Z (quantity it))%Q in
          let discountAmount := (lineSubtotal * discountPercentage it / 100)%Q in
          let lineTotal := (lineSubtotal - discountAmount)%Q in
          let lineTaxAmount := (lineTotal * p_tax_rate p / 100)%Q in
          ret (mkProcessed (productId it) (inventory_id b) (quantity it)
                           (unitPrice it) lineTotal, lineTotal, lineTaxAmount)
        end
    end.

Fixpoint process_items (rx : option string) (l : list sale_line)
    (subtotal tax : Q) (acc : list processed_item)
  : client (Q * Q * list processed_item) :=
  match l with
  | [] => ret (subtotal, tax, acc)
  | it :: t =>
      r <-- process_item rx it ;;
      let '(pi, lineTotal, lineTax) := r in
      process_items rx t (subtotal + lineTotal)%Q (tax + lineTax)%Q (acc ++ [pi])
  end.

Definition next_sale_id (s : db) : Z := Z.of_nat (List.length (sales s)) + 1.
Definition next_sale_item_id (s : db) : Z := Z.of_nat (List.length (sale_items s)) + 1.

(** [INSERT INTO sale_items ...] then the on_hand/reserved decrement. *)
Fixpoint insert_sale_items (sid : Z) (l : list processed_item) : client unit :=
  match l with
  | [] => ret tt
  | pi :: t =>
      s <-- get ;;
      put (set_sale_items
             (sale_items s ++ [mkSaleItem (next_sale_item_id s) sid (pi_productId pi)
                                 (pi_inventoryId pi) (pi_quantity pi) (pi_lineTotal pi)])
             s) ;;;
      update_inventory (pi_inventoryId pi)
        (fun b => with_reserved (quantity_reserved b - pi_quantity pi)
                    (with_on_hand (quantity_on_hand b - pi_quantity pi) b)) ;;;
      insert_sale_items sid t
  end.

Definition payment_mismatch (paid total : Q) : bool :=
  negb (Qle_bool (Qabs (paid - total)) (1 # 100)).

(** [Math.abs(Number(insuranceClaimAmount) + Number(customerPaymentAmount)
    - totalAmount) > 0.01].  [insuranceClaimAmount] defaults to 0; an absent
    [customerPaymentAmount] is [None]: [Number(undefined)] is NaN, the sum is
    NaN, and [NaN > 0.01] is false, so the check lets any total through. *)
Definition payments_mismatch (insurance : Q) (customer : option Q) (total : Q) : bool :=
  match customer with
  | None => false
  | Some c => payment_mismatch (insurance + c) total
  end.

(** The transaction callback of createSale.  The new sale row takes the
    [payment_status] column default 'completed', the only status
    processRefund accepts. *)
Definition create_sale_tx (req : sale_request) : client Z :=
  r <-- process_items (prescriptionNumber req) (items req) 0%Q 0%Q [] ;;
  let '(subtotal, tax, processed) := r in
  let totalAmount := (subtotal + tax)%Q in
  if payments_mismatch (insuranceClaimAmount req) (customerPaymentAmount req)
                       totalAmount then
    throw "Payment amounts do not match total amount"
  else
    s <-- get ;;
    let sid := next_sale_id s in
    put (set_sales (sales s ++ [mkSale sid totalAmount "completed"]) s) ;;;
    insert_sale_items sid processed ;;;
    ret sid.

Definition valid_payment_methods : list string :=
  ["cash"; "card"; "insurance"; "check"; "digital"].

Definition createSale (req : sale_request) (s : db) : response * db :=
  match items req with
  | [] => (Failed 400 "At least one item is required for the sale", s)
  | _ =>
    if negb (truthy_str (paymentMethod req)) then (Failed 400 "Payment method is required", s)
    else if negb (existsb (String.eqb (match paymentMethod req with Some m => m | None => "" end))
                          valid_payment_methods) then
      (Failed 400 "Invalid payment method", s)
    else
      match transaction (create_sale_tx req) s with
      | (inr sid, s') => (Created sid, s')
      | (inl e, s') => (Failed 400 e, s')
      end
  end.

(** ** SalesController.processRefund (src/unnamed/part_001) *)

Record refund_line := mkRefundLine {
  saleItemId : Z;
  quantityToRefund : Z
}.

Record refund_request := mkRefundReq {
  r_saleId : Z;
  r_items : list refund_line;
  refundAmount : option Q
}.

(** [SELECT * FROM sales WHERE sale_id = $1 AND payment_status = 'completed']. *)
Definition find_completed_sale (sid : Z) (s : db) : option sale :=
  find (fun x => (sale_id x =? sid) && String.eqb (payment_status x) "completed")
       (sales s).

(** [sale_items si JOIN products p ... WHERE si.sale_item_id = $1
    AND si.sale_id = $2]. *)
Definition find_sale_item (siid sid : Z) (s : db) : option sale_item :=
  find (fun i => (sale_item_id i =? siid) && (si_sale_id i =? sid)
                 && existsb (fun p => p_product_id p =? si_product_id i) (products s))
       (sale_items s).

(** [INSERT INTO stock_movements ... SELECT ... FROM inventory i
    WHERE i.inventory_id = $1]: one 'return' row per matching batch,
    read after the on_hand increment. *)
Definition insert_return_movements (id pid q sid : Z) : client unit :=
  s <-- get ;;
  put (set_movements
         (stock_movements s
          ++ map (fun b => mkMovement id pid "return" q (quantity_on_hand b - q)
                                      (quantity_on_hand b) sid "sale_refund")
                 (filter (fun b => inventory_id b =? id) (inventory s)))
         s).

Fixpoint refund_items (sid : Z) (l : list refund_line) (total : Q) : client Q :=
  match l with
  | [] => ret total
  | ri :: t =>
      s <-- get ;;
      match find_sale_item (saleItemId ri) sid s with
      | None => throw "Sale item not found"
      | Some it =>
        if si_quantity it <? quantityToRefund ri then
          throw "Cannot refund more than were sold"
        else
          let itemRefundAmount :=
            (si_line_total it / inject_Z (si_quantity it)
             * inject_Z (quantityToRefund ri))%Q in
          update_inventory (si_inventory_id it)
            (fun b => with_on_hand (quantity_on_hand b + quantityToRefund ri) b) ;;;
          insert_return_movements (si_inventory_id it) (si_product_id it)
                                  (quantityToRefund ri) sid ;;;
          refund_items sid t (total + itemRefundAmount)%Q
      end
  end.

Definition update_sale_status (sid : Z) (st : string) : client unit :=
  s <-- get ;;
  put (set_sales (map (fun x => if sale_id x =? sid
                                then mkSale (sale_id x) (total_amount x) st else x)
                      (sales s)) s).

Definition process_refund_tx (req : refund_request) : client Z :=
  s <-- get ;;
  match find_completed_sale (r_saleId req) s with
  | None => throw "Sale not found or cannot be refunded"
  | Some sl =>
    total <-- refund_items (r_saleId req) (r_items req) 0%Q ;;
    let given := match refundAmount req with Some a => a | None => 0%Q end in
    if truthy_Q (refundAmount req) && payment_mismatch given total then
      throw "Provided refund amount does not match calculated amount"
    else
      let finalRefundAmount := if truthy_Q (refundAmount req) then given else total in
      let newPaymentStatus :=
        if Qle_bool (total_amount sl) finalRefundAmount then "refunded" else "partial" in
      update_sale_status (r_saleId req) newPaymentStatus ;;;
      ret (r_saleId req)
  end.

Definition processRefund (req : refund_request) (s : db) : response * db :=
  match r_items req with
  | [] => (Failed 400 "Items to refund are required", s)
  | _ =>
    match transaction (process_refund_tx req) s with
    | (inr sid, s') => (Okay sid, s')
    | (inl e, s') => (Failed 400 e, s')
    end
  end.

(** ** StockMovement controller (src/src/controllers/AuthController.js):
    createAdjustment and createTransfer *)

(** [!reason || reason.trim().length === 0].  Strings are UTF-8 byte
    strings.  [String.prototype.trim] strips the ECMAScript WhiteSpace and
    LineTerminator code points: U+0009 to U+000D, U+0020, U+00A0, U+1680,
    U+2000 to U+200A, U+2028, U+2029, U+202F, U+205F, U+3000 and U+FEFF.
    [js_ws_prefix str] is the rest of [str] after one such code point at its
    start, if it starts with one. *)
Definition byte_is (c : Ascii.ascii) (n : nat) : bool :=
  Nat.eqb (Ascii.nat_of_ascii c) n.

Definition js_ws_prefix (str : string) : option string :=
  match str with
  | EmptyString => None
  | String c t =>
    let n := Ascii.nat_of_ascii c in
    if (9 <=? n)%nat && (n <=? 13)%nat || Nat.eqb n 32 then Some t
    else if Nat.eqb n 194 then                                 (* C2 A0 *)
      match t with String c2 t2 => if byte_is c2 160 then Some t2 else None | _ => None end
    else if Nat.eqb n 225 then                                 (* E1 9A 80 *)
      match t with
      | String c2 (String c3 t3) => if byte_is c2 154 && byte_is c3 128 then Some t3 else None
      | _ => None
      end
    else if Nat.eqb n 226 then                                 (* E2 80 xx, E2 81 9F *)
      match t with
      | String c2 (String c3 t3) =>
        let n3 := Ascii.nat_of_ascii c3 in
        if byte_is c2 128 && ((128 <=? n3)%nat && (n3 <=? 138)%nat
                              || Nat.eqb n3 168 || Nat.eqb n3 169 || Nat.eqb n3 175)
        then Some t3
        else if byte_is c2 129 && Nat.eqb n3 159 then Some t3
        else None
      | _ => None
      end
    else if Nat.eqb n 227 then                                 (* E3 80 80 *)
      match t with
      | String c2 (String c3 t3) => if byte_is c2 128 && byte_is c3 128 then Some t3 else None
      | _ => None
      end
    else if Nat.eqb n 239 then                                 (* EF BB BF *)
      match t with
      | String c2 (String c3 t3) => if byte_is c2 187 && byte_is c3 191 then Some t3 else None
      | _ => None
      end
    else None
  end.

(** Every code point of the string is JavaScript white space, so that
    [trim()] leaves the empty string; [fuel] bounds the number of code
    points by the number of bytes. *)
Fixpoint all_ws_fuel (fuel : nat) (str : string) : bool :=
  match str with
  | EmptyString => true
  | _ =>
    match fuel with
    | O => false
    | S f => match js_ws_prefix str with Some t => all_ws_fuel f t | None => false end
    end
  end.
Definition all_ws (str : string) : bool := all_ws_fuel (String.length str) str.

Definition blank_reason (o : option string) : bool :=
  match o with None => true | Some r => all_ws r end.

(** [inventory i JOIN products p ... WHERE i.inventory_id = $1
    AND i.status = 'active' FOR UPDATE]. *)
Definition find_active_batch (id : Z) (s : db) : option batch :=
  find (fun b => (inventory_id b =? id) && is_active (status b)
                 && existsb (fun p => p_product_id p =? product_id b) (products s))
       (inventory s).

Record adjustment_request := mkAdjReq {
  a_inventoryId : Z;
  adjustmentType : string;
  quantityChange : Z;
  a_reason : option string
}.

Definition create_adjustment_tx (req : adjustment_request) : client Z :=
  s <-- get ;;
  match find_active_batch (a_inventoryId req) s with
  | None => throw "Inventory record not found or inactive"
  | Some inv =>
    let quantityBefore := quantity_on_hand inv in
    let quantityAfter := quantityBefore + quantityChange req in
    if quantityAfter <? 0 then throw "Cannot reduce quantity"
    else
      update_inventory (a_inventoryId req) (with_on_hand quantityAfter) ;;;
      insert_movement (mkMovement (a_inventoryId req) (product_id inv)
                         (adjustmentType req) (quantityChange req)
                         quantityBefore quantityAfter 0 "") ;;;
      ret (a_inventoryId req)
  end.

Definition createAdjustment (req : adjustment_request) (s : db) : response * db :=
  if (a_inventoryId req =? 0) || (quantityChange req =? 0) then
    (Failed 400 "Inventory ID and non-zero quantity change are required", s)
  else if blank_reason (a_reason req) then
    (Failed 400 "Reason for adjustment is required", s)
  else
    match transaction (create_adjustment_tx req) s with
    | (inr id, s') => (Created id, s')
    | (inl e, s') => (Failed 400 e, s')
    end.

(** Request-body ids are JSON values: a number or a string.  JavaScript's
    [===] compares them with their type; node-postgres sends every
    parameter as text, which PostgreSQL reads back as an integer. *)
Inductive jsval := JNum (n : Z) | JStr (str : string).

Definition js_strict_eq (a b : jsval) : bool :=
  match a, b with
  | JNum x, JNum y => x =? y
  | JStr x, JStr y => String.eqb x y
  | _, _ => false
  end.

Definition js_truthy (v : jsval) : bool :=
  match v with JNum n => negb (n =? 0) | JStr str => negb (String.eqb str "") end.

(** PostgreSQL's [int4in] (decimal syntax): optional leading white space
    (C [isspace]: space, \t, \n, \v, \f, \r), an optional sign, at least one
    digit, optional trailing white space, and a value within the int4 range;
    anything else is an error. *)
Definition pg_space (c : Ascii.ascii) : bool :=
  let n := Ascii.nat_of_ascii c in ((9 <=? n)%nat && (n <=? 13)%nat) || Nat.eqb n 32.

Fixpoint skip_pg_space (str : string) : string :=
  match str with
  | String c t => if pg_space c then skip_pg_space t else str
  | EmptyString => EmptyString
  end.

(** The run of digits at the start of [str]: its value (accumulated onto
    [acc]), the number of digits and the rest. *)
Fixpoint take_digits (str : string) (acc : Z) (count : nat) : Z * nat * string :=
  match str with
  | EmptyString => (acc, count, EmptyString)
  | String c t =>
      let n := Z.of_nat (Ascii.nat_of_ascii c) in
      if (48 <=? n) && (n <=? 57) then take_digits t (acc * 10 + (n - 48)) (S count)
      else (acc, count, str)
  end.

Definition int4_range (n : Z) : bool := (-2147483648 <=? n) && (n <=? 2147483647).

Definition parse_int4 (str : string) : option Z :=
  let s1 := skip_pg_space str in
  let '(neg, s2) :=
    match s1 with
    | String c t => if byte_is c 45 then (true, t) else if byte_is c 43 then (false, t)
                    else (false, s1)
    | EmptyString => (false, s1)
    end in
  let '(v, count, rest) := take_digits s2 0 0 in
  let n := if neg then - v else v in
  match count, skip_pg_space rest with
  | O, _ => None
  | _, EmptyString => if int4_range n then Some n else None
  | _, _ => None
  end.

(** node-postgres sends a number as its decimal text. *)
Definition pg_int (v : jsval) : option Z :=
  match v with
  | JNum n => if int4_range n then Some n else None
  | JStr str => parse_int4 str
  end.

Definition select_active_for_update (v : jsval) : client (option batch) :=
  match pg_int v with
  | None => throw "invalid input syntax for type integer"
  | Some id => s <-- get ;; ret (find_active_batch id s)
  end.

Record transfer_request := mkTransferReq {
  fromInventoryId : jsval;
  toInventoryId : jsval;
  t_quantity : Q;
  t_reason : option string
}.

(** [parseInt(quantity)] on a JavaScript number: [parseInt(String(q))].
    [String] writes numbers with 1e-6 <= |q| < 1e21 in plain decimal, so
    parseInt keeps the integer part (truncation toward zero); outside that
    range it writes [d.ddde+N] or [d.ddde-N], and parseInt keeps the
    leading digit [d]. *)
Fixpoint lead_digit_fuel (fuel : nat) (z : Z) : Z :=
  match fuel with
  | O => z
  | S f => if z <? 10 then z else lead_digit_fuel f (z / 10)
  end.

(** First significant digit of [n / d] for 0 < n < d. *)
Fixpoint frac_lead_digit_fuel (fuel : nat) (n d : Z) : Z :=
  match fuel with
  | O => n / d
  | S f => if d <=? n then n / d else frac_lead_digit_fuel f (n * 10) d
  end.

Definition js_parseInt_number (q : Q) : Z :=
  let a := Qabs q in
  let sgn := if Qle_bool 0 q then 1 else -1 in
  let n := Qnum a in
  let d := Zpos (Qden a) in
  if Qeq_bool q 0 then 0
  else if Qle_bool (inject_Z (10 ^ 21)) a then
    sgn * lead_digit_fuel (Z.to_nat (Z.log2 (n / d)) + 1) (n / d)
  else if Qle_bool (1 # 1000000) a then sgn * (n / d)
  else sgn * frac_lead_digit_fuel (Z.to_nat (Z.log2 d) + 1) n d.

Definition create_transfer_tx (req : transfer_request) : client unit :=
  fromRow <-- select_active_for_update (fromInventoryId req) ;;
  match fromRow with
  | None => throw "Source inventory record not found or inactive"
  | Some fromInventory =>
    toRow <-- select_active_for_update (toInventoryId req) ;;
    match toRow with
    | None => throw "Destination inventory record not found or inactive"
    | Some toInventory =>
      if negb (product_id fromInventory =? product_id toInventory) then
        throw "Cannot transfer between different products"
      else
        let transferQuantity := js_parseInt_number (t_quantity req) in
        let fromQuantityBefore := quantity_on_hand fromInventory in
        let toQuantityBefore := quantity_on_hand toInventory in
        if fromQuantityBefore <? transferQuantity then
          throw "Insufficient quantity in source batch"
        else
          let fromQuantityAfter := fromQuantityBefore - transferQuantity in
          let toQuantityAfter := toQuantityBefore + transferQuantity in
          let fromId := inventory_id fromInventory in
          let toId := inventory_id toInventory in
          update_inventory fromId (with_on_hand fromQuantityAfter) ;;;
          update_inventory toId (with_on_hand toQuantityAfter) ;;;
          insert_movement (mkMovement fromId (product_id fromInventory) "transfer"
                             (- transferQuantity) fromQuantityBefore fromQuantityAfter
                             toId "transfer_out") ;;;
          insert_movement (mkMovement toId (product_id toInventory) "transfer"
                             transferQuantity toQuantityBefore toQuantityAfter
                             fromId "transfer_in")
    end
  end.

Definition createTransfer (req : transfer_request) (s : db) : response * db :=
  if negb (js_truthy (fromInventoryId req)) || negb (js_truthy (toInventoryId req))
     || Qle_bool (t_quantity req) 0 then
    (Failed 400 "From inventory, to inventory, and positive quantity are required", s)
  else if js_strict_eq (fromInventoryId req) (toInventoryId req) then
    (Failed 400 "Cannot transfer to the same inventory record", s)
  else if blank_reason (t_reason req) then
    (Failed 400 "Reason for transfer is required", s)
  else
    match transaction (create_transfer_tx req) s with
    | (inr _, s') => (Created 0, s')
    | (inl e, s') => (Failed 400 e, s')
    end.

(** ** InventoryController.inventoryAdjustment
    (src/src/controllers/InventoryController.js) *)

(** Modelled from the spec: models/Inventory.js (Inventory.findById and
    Inventory.updateQuantity) is not in the repository sources.  findById
    reads the batch row by id.  updateQuantity goes through the atomic
    BatchStore mutation of section 4.1: it rejects (InvariantViolation) a
    new on_hand below zero or below the reserved quantity; otherwise it sets
    on_hand and writes the one Movement that section 3 pairs with every
    on_hand change. *)
Definition inventory_updateQuantity (id newQuantity : Z) : client batch :=
  s <-- get ;;
  match find_batch id s with
  | None => throw "Inventory record not found"
  | Some b =>
    if (newQuantity <? 0) || (newQuantity <? quantity_reserved b) then
      throw "InvariantViolation"
    else
      update_inventory id (with_on_hand newQuantity) ;;;
      insert_movement (mkMovement id (product_id b) "adjustment"
                         (newQuantity - quantity_on_hand b) (quantity_on_hand b)
                         newQuantity 0 "") ;;;
      ret (with_on_hand newQuantity b)
  end.

Definition inventoryAdjustment (id adjustment_quantity : Z) (reason : option string)
    (s : db) : response * db :=
  if id <=? 0 then (Failed 400 "Invalid inventory ID", s)
  else if blank_reason reason then
    (Failed 400 "Reason is required for inventory adjustments", s)
  else
    match find_batch id s with
    | None => (Failed 404 "Inventory record not found", s)
    | Some currentInventory =>
      let newQuantity := Z.max 0 (quantity_on_hand currentInventory + adjustment_quantity) in
      match transaction (inventory_updateQuantity id newQuantity) s with
      | (inr _, s') => (Okay id, s')
      | (inl e, s') => (Failed 500 e, s')
      end
    end.

(** ** PurchaseOrderController.receiveGoods
    (src/src/controllers/PurchaseOrderController.js) *)

Record receipt_line := mkReceiptLine {
  rl_po_item_id : Z;
  rl_quantity_received : Z;
  rl_batch_number : string;
  rl_lot_number : string;
  rl_expiration_date : Z
}.

Record receipt_request := mkReceiptReq {
  rc_po_id : Z;
  rc_items : list receipt_line
}.

(** [purchase_order_items poi JOIN products p ... WHERE poi.po_item_id = $1
    AND poi.po_id = $2]. *)
Definition find_po_item (itemid poid : Z) (s : db) : option po_item :=
  find (fun i => (po_item_id i =? itemid) && (poi_po_id i =? poid)
                 && existsb (fun p => p_product_id p =? poi_product_id i) (products s))
       (purchase_order_items s).

Definition update_po_item (itemid newQ : Z) (st : string) : client unit :=
  s <-- get ;;
  put (set_po_items
         (map (fun i => if po_item_id i =? itemid
                        then mkPOItem (po_item_id i) (poi_po_id i) (poi_product_id i)
                                      (quantity_ordered i) newQ (poi_unit_cost i) st
                        else i)
              (purchase_order_items s)) s).

Definition next_inventory_id (s : db) : Z := Z.of_nat (List.length (inventory s)) + 1.

(** [INSERT INTO inventory (...) VALUES (..., 'active')]: a new row every
    time, quantity_reserved taking its default 0. *)
Definition insert_inventory (b : Z -> batch) : client unit :=
  s <-- get ;; put (set_inventory (inventory s ++ [b (next_inventory_id s)]) s).

Fixpoint receive_items (poid : Z) (l : list receipt_line) : client unit :=
  match l with
  | [] => ret tt
  | it :: t =>
    s <-- get ;;
    match find_po_item (rl_po_item_id it) poid s with
    | None => throw "Purchase order item not found"
    | Some poItem =>
      let newQuantityReceived := quantity_received poItem + rl_quantity_received it in
      if quantity_ordered poItem <? newQuantityReceived then
        throw "Cannot receive more than ordered quantity"
      else
        let newStatus := if newQuantityReceived =? quantity_ordered poItem
                         then "received" else "partially_received" in
        update_po_item (rl_po_item_id it) newQuantityReceived newStatus ;;;
        s1 <-- get ;;
        match find (fun po => po_id po =? poid) (purchase_orders s1) with
        | None => throw "Cannot read properties of undefined (reading 'supplier_id')"
        | Some _ =>
          insert_inventory (fun nid =>
            mkBatch nid (poi_product_id poItem) (rl_batch_number it) (rl_lot_number it)
                    (rl_quantity_received it) 0 (poi_unit_cost poItem)
                    (rl_expiration_date it) Active) ;;;
          receive_items poid t
        end
    end
  end.

Definition count_status (st : string) (l : list po_item) : nat :=
  List.length (filter (fun i => String.eqb (poi_status i) st) l).

Definition receive_goods_tx (req : receipt_request) : client unit :=
  receive_items (rc_po_id req) (rc_items req) ;;;
  s <-- get ;;
  let mine := filter (fun i => poi_po_id i =? rc_po_id req) (purchase_order_items s) in
  let total_items := List.length mine in
  let received_items := count_status "received" mine in
  let partial_items := count_status "partially_received" mine in
  let poStatus :=
    if Nat.eqb received_items total_items then "received"
    else if Nat.ltb 0 partial_items || Nat.ltb 0 received_items then "partially_received"
    else "ordered" in
  put (set_purchase_orders
         (map (fun po => if po_id po =? rc_po_id req
                         then mkPO (po_id po) (po_supplier_id po) poStatus else po)
              (purchase_orders s)) s).

Definition receiveGoods (req : receipt_request) (s : db) : response * db :=
  match rc_items req with
  | [] => (Failed 400 "No items to receive", s)
  | _ =>
    match transaction (receive_goods_tx req) s with
    | (inr _, s') => (Okay (rc_po_id req), s')
    | (inl e, s') => (Failed 500 e, s')
    end
  end.

(** ** Expiry tiers: ReportController.getExpirationReport (src/unnamed/part_000)
    and AlertController.generateExpirationAlerts *)

(** [CASE WHEN expiration_date < CURRENT_DATE THEN 'expired'
    WHEN (expiration_date - CURRENT_DATE) <= 30 THEN 'critical'
    WHEN ... <= 60 THEN 'warning' ELSE 'watch' END]. *)
Definition urgency_level (expiration today : Z) : string :=
  if expiration <? today then "expired"
  else if expiration - today <=? 30 then "critical"
  else if expiration - today <=? 60 then "warning"
  else "watch".

(** The alert query's CASE; NULL (None) past 90 days, where the
    [expiration_date <= CURRENT_DATE + 90 days] filter also drops the row. *)
Definition alert_type (expiration today : Z) : option string :=
  if expiration <? today then Some "expired"
  else if expiration <=? today + 30 then Some "30_days"
  else if expiration <=? today + 60 then Some "60_days"
  else if expiration <=? today + 90 then Some "90_days"
  else None.

(** The alert-type name of each report tier. *)
Definition alert_of_urgency (u : string) : string :=
  if String.eqb u "expired" then "expired"
  else if String.eqb u "critical" then "30_days"
  else if String.eqb u "warning" then "60_days"
  else "90_days".

(** ** Concrete stores used by the scenarios *)

Definition prodP : product := mkProduct 1 true false 0%Q (Some 3).

(** Batch X (on_hand 10, expires 2024-01-01 = day 19723) and batch Y
    (on_hand 10, expires 2024-06-01 = day 19875) of product P. *)
Definition batchX : batch := mkBatch 1 1 "X" "LX" 10 0 1%Q 19723 Active.
Definition batchY : batch := mkBatch 2 1 "Y" "LY" 10 0 1%Q 19875 Active.

Definition db_XY : db := mkDb [prodP] [batchX; batchY] [] [] [] [] [].

Definition cash_sale (l : list sale_line) (paid : Q) : sale_request :=
  mkSaleReq l (Some "cash") None 0%Q (Some paid).

Definition line (pid q : Z) (pinned : option Z) : sale_line :=
  mkLine pid q 1%Q 0%Q pinned.

Definition on_hand_of (id : Z) (s : db) : option Z :=
  option_map quantity_on_hand (find_batch id s).
Definition reserved_of (id : Z) (s : db) : option Z :=
  option_map quantity_reserved (find_batch id s).

Example sale_5_from_X :
  let r := createSale (cash_sale [line 1 5 None] 5%Q) db_XY in
  fst r = Created 1 /\ on_hand_of 1 (snd r) = Some 5 /\ on_hand_of 2 (snd r) = Some 10.
Proof. vm_compute. auto. Qed.

(** * Properties *)

(** ** Rollback *)

Lemma transaction_rollback {A} (c : client A) (s s' : db) (e : string) :
  transaction c s = (inl e, s') -> s' = s.
Proof. unfold transaction. destruct (c s) as [?|[? ?]]; congruence. Qed.

Ltac split_controller :=
  repeat (match goal with
          | |- context [match transaction ?c ?s with _ => _ end] =>
              let E := fresh "E" in
              destruct (transaction c s) as [[?|?] ?] eqn:E
          | |- context [if ?b then _ else _] => destruct b
          | |- context [match ?x with _ => _ end] => destruct x
          end; cbv beta iota).

Ltac settle_controller :=
  cbn [fst snd];
  match goal with
  | |- ?s = ?s \/ _ => left; reflexivity
  | E : transaction _ _ = (inl _, _) |- _ => left; eapply transaction_rollback; exact E
  | |- _ \/ exists x, ?c _ = ?c x => right; eexists; reflexivity
  end.

Lemma createSale_commits_or_restores (req : sale_request) (s : db) :
  snd (createSale req s) = s \/ exists id, fst (createSale req s) = Created id.
Proof. unfold createSale. split_controller; settle_controller. Qed.

Lemma processRefund_commits_or_restores (req : refund_request) (s : db) :
  snd (processRefund req s) = s \/ exists id, fst (processRefund req s) = Okay id.
Proof. unfold processRefund. split_controller; settle_controller. Qed.

Lemma createAdjustment_commits_or_restores (req : adjustment_request) (s : db) :
  snd (createAdjustment req s) = s \/ exists id, fst (createAdjustment req s) = Created id.
Proof. unfold createAdjustment. split_controller; settle_controller. Qed.

Lemma createTransfer_commits_or_restores (req : transfer_request) (s : db) :
  snd (createTransfer req s) = s \/ exists id, fst (createTransfer req s) = Created id.
Proof. unfold createTransfer. split_controller; settle_controller. Qed.

Lemma receiveGoods_commits_or_restores (req : receipt_request) (s : db) :
  snd (receiveGoods req s) = s \/ exists id, fst (receiveGoods req s) = Okay id.
Proof. unfold receiveGoods. split_controller; settle_controller. Qed.

Lemma inventoryAdjustment_commits_or_restores (id q : Z) (r : option string) (s : db) :
  snd (inventoryAdjustment id q r s) = s
  \/ exists x, fst (inventoryAdjustment id q r s) = Okay x.
Proof. unfold inventoryAdjustment. split_controller; settle_controller. Qed.

(** ** Monad inversion *)

Lemma bind_ok {A B} (m : client A) (k : A -> client B) (s : db) r :
  bind m k s = inr r -> exists a s1, m s = inr (a, s1) /\ k a s1 = inr r.
Proof.
  unfold bind. destruct (m s) as [e|[a s1]]; [discriminate|].
  intro H. exists a, s1. auto.
Qed.

Lemma throw_not_ok {A} (msg : string) (s : db) r : @throw A msg s <> inr r.
Proof. discriminate. Qed.

Lemma update_inventory_run (id : Z) (f : batch -> batch) (s : db) :
  update_inventory id f s
  = inr (tt, set_inventory (map (fun b => if inventory_id b =? id then f b else b)
                                (inventory s)) s).
Proof. reflexivity. Qed.

(** One FIFO item: the whole quantity is reserved on the batch that
    [select_fifo] returns. *)
Lemma process_item_fifo (rx : option string) (it : sale_line) (s s1 : db) r :
  truthy_id (inventoryId it) = false ->
  process_item rx it s = inr (r, s1) ->
  exists b, select_fifo (productId it) (quantity it) s = Some b
    /\ pi_inventoryId (fst (fst r)) = inventory_id b
    /\ pi_quantity (fst (fst r)) = quantity it
    /\ s1 = set_inventory
              (map (fun x => if inventory_id x =? inventory_id b
                             then with_reserved (quantity_reserved x + quantity it) x
                             else x) (inventory s)) s.
Proof.
  intros Hpin H. unfold process_item in H.
  destruct ((productId it =? 0) || (quantity it <=? 0)); [discriminate|].
  unfold bind, get in H.
  destruct (find_active_product (productId it) s) as [p|]; [|discriminate].
  destruct (p_requires_prescription p && negb (truthy_str rx)); [discriminate|].
  rewrite Hpin in H.
  destruct (select_fifo (productId it) (quantity it) s) as [b|] eqn:Hsel;
    [|discriminate].
  rewrite update_inventory_run in H. cbv beta iota in H.
  unfold ret in H. injection H as <- <-.
  exists b. simpl. auto.
Qed.

(** ** FIFO selection *)

Lemma earliest_in (best : batch) (l : list batch) : In (earliest best l) (best :: l).
Proof.
  revert best. induction l as [|b t IH]; intro best; simpl; [auto|].
  destruct (expiration_date b <? expiration_date best).
  - specialize (IH b). simpl in IH. tauto.
  - specialize (IH best). simpl in IH. tauto.
Qed.

Lemma earliest_min (best : batch) (l : list batch) (x : batch) :
  In x (best :: l) -> expiration_date (earliest best l) <= expiration_date x.
Proof.
  revert best x. induction l as [|b t IH]; intros best x Hx; simpl.
  - destruct Hx as [<-|[]]. lia.
  - destruct (expiration_date b <? expiration_date best) eqn:Hlt.
    + apply Z.ltb_lt in Hlt.
      destruct Hx as [<-|Hx].
      * specialize (IH b b (or_introl eq_refl)). lia.
      * apply IH. exact Hx.
    + apply Z.ltb_ge in Hlt.
      destruct Hx as [<-|[<-|Hx]].
      * apply IH. left. reflexivity.
      * specialize (IH best best (or_introl eq_refl)). lia.
      * apply IH. right. exact Hx.
Qed.

Lemma select_fifo_spec (pid qty : Z) (s : db) (b : batch) :
  select_fifo pid qty s = Some b ->
  In b (inventory s) /\ fifo_eligible pid qty b = true
  /\ forall b', In b' (inventory s) -> fifo_eligible pid qty b' = true ->
                expiration_date b <= expiration_date b'.
Proof.
  unfold select_fifo.
  destruct (filter (fifo_eligible pid qty) (inventory s)) as [|b0 t] eqn:Hf;
    [discriminate|].
  intro H. injection H as <-.
  pose proof (earliest_in b0 t) as Hin. rewrite <- Hf in Hin.
  apply filter_In in Hin as [Hin Helig].
  split; [exact Hin|]. split; [exact Helig|].
  intros b' Hb' Hel. apply earliest_min. rewrite <- Hf. apply filter_In. auto.
Qed.

Lemma select_fifo_none (pid qty : Z) (s : db) :
  select_fifo pid qty s = None ->
  forall b, In b (inventory s) -> fifo_eligible pid qty b = false.
Proof.
  unfold select_fifo.
  destruct (filter (fifo_eligible pid qty) (inventory s)) as [|b0 t] eqn:Hf;
    [|discriminate].
  intros _ b Hb. destruct (fifo_eligible pid qty b) eqn:He; [|reflexivity].
  assert (In b (filter (fifo_eligible pid qty) (inventory s))) as Hin
    by (apply filter_In; auto).
  rewrite Hf in Hin. destruct Hin.
Qed.

(** ** Claims *)

Definition sale5 : sale_request := cash_sale [line 1 5 None] 5%Q.

(** C1 counterexample: batches X (10, 2024-01-01) and Y (10, 2024-06-01);
    a sale of 15 with no pinned batch does not split 10 + 5, it fails and
    changes nothing. *)
Lemma C1_no_spillover_counterexample :
  fst (createSale (cash_sale [line 1 15 None] 15%Q) db_XY)
    = Failed 400 "Insufficient inventory for product"
  /\ snd (createSale (cash_sale [line 1 15 None] 15%Q) db_XY) = db_XY
  /\ ~ (exists sid, fst (createSale (cash_sale [line 1 15 None] 15%Q) db_XY) = Created sid).
Proof.
  vm_compute. split; [reflexivity|]. split; [reflexivity|].
  intros [sid H]. discriminate.
Qed.

(** C4.  Every core operation that answers with an error leaves the whole
    store (batches, movements, sales, purchase orders) exactly as it was:
    createSale, processRefund, createAdjustment, createTransfer,
    receiveGoods and InventoryController.inventoryAdjustment. *)
Theorem C4_failed_operation_persists_nothing (s : db) :
  (forall req h m, fst (createSale req s) = Failed h m -> snd (createSale req s) = s)
  /\ (forall req h m, fst (processRefund req s) = Failed h m -> snd (processRefund req s) = s)
  /\ (forall req h m, fst (createAdjustment req s) = Failed h m ->
                      snd (createAdjustment req s) = s)
  /\ (forall req h m, fst (createTransfer req s) = Failed h m ->
                      snd (createTransfer req s) = s)
  /\ (forall req h m, fst (receiveGoods req s) = Failed h m -> snd (receiveGoods req s) = s)
  /\ (forall id q r h m, fst (inventoryAdjustment id q r s) = Failed h m ->
                         snd (inventoryAdjustment id q r s) = s).
Proof.
  repeat split; intros.
  - destruct (createSale_commits_or_restores req s) as [?|[x Hx]]; congruence.
  - destruct (processRefund_commits_or_restores req s) as [?|[x Hx]]; congruence.
  - destruct (createAdjustment_commits_or_restores req s) as [?|[x Hx]]; congruence.
  - destruct (createTransfer_commits_or_restores req s) as [?|[x Hx]]; congruence.
  - destruct (receiveGoods_commits_or_restores req s) as [?|[x Hx]]; congruence.
  - destruct (inventoryAdjustment_commits_or_restores id q r s) as [?|[x Hx]]; congruence.
Qed.

(** A two-line sale whose second line cannot be allocated: the reservation
    the first line made on batch X does not survive. *)
Example two_line_sale_rolls_back :
  createSale (cash_sale [line 1 5 None; line 1 50 None] 55%Q) db_XY
  = (Failed 400 "Insufficient inventory for product", db_XY).
Proof. vm_compute. reflexivity. Qed.

(** C2 (code bug).  InventoryController.inventoryAdjustment clamps the new
    on_hand at zero with [Math.max(0, ...)]: delta -5 on a batch holding 3
    succeeds and leaves 0.  Its sibling createAdjustment refuses the same
    request ("Cannot reduce quantity") and keeps 3. *)
Definition db_three : db :=
  mkDb [prodP] [mkBatch 1 1 "X" "LX" 3 0 1%Q 19723 Active] [] [] [] [] [].

Theorem C2_inventoryAdjustment_clamps_at_zero :
  fst (inventoryAdjustment 1 (-5) (Some "damaged") db_three) = Okay 1
  /\ on_hand_of 1 (snd (inventoryAdjustment 1 (-5) (Some "damaged") db_three)) = Some 0
  /\ createAdjustment (mkAdjReq 1 "adjustment" (-5) (Some "damaged")) db_three
     = (Failed 400 "Cannot reduce quantity", db_three).
Proof. vm_compute. auto. Qed.

(** A purchase order (supplier 7) with one line of product P: 20 ordered,
    none received yet. *)
Definition db_po : db :=
  mkDb [prodP] [batchX; batchY] [] [] []
       [mkPO 1 7 "ordered"] [mkPOItem 1 1 1 20 0 1%Q "pending"].

(** Receiving 6 units under batch number "X", lot "LX", expiring on
    2024-01-01: the same batch/lot number and expiration as batch X. *)
Definition receipt_same_as_X : receipt_request :=
  mkReceiptReq 1 [mkReceiptLine 1 6 "X" "LX" 19723].

(** C3 (code bug).  A committed sale lowers on_hand and a committed receipt
    adds a batch holding stock, yet neither inserts a stock_movements row;
    refund, createAdjustment and createTransfer do insert one per change. *)
Theorem C3_sale_and_receipt_write_no_movement :
  fst (createSale sale5 db_XY) = Created 1
  /\ on_hand_of 1 (snd (createSale sale5 db_XY)) = Some 5
  /\ stock_movements (snd (createSale sale5 db_XY)) = []
  /\ fst (receiveGoods receipt_same_as_X db_po) = Okay 1
  /\ on_hand_of 3 (snd (receiveGoods receipt_same_as_X db_po)) = Some 6
  /\ stock_movements (snd (receiveGoods receipt_same_as_X db_po)) = [].
Proof. vm_compute. auto 7. Qed.

(** Sale of 4 units (FIFO: batch X) and the full refund of its line. *)
Definition sale4 : sale_request := cash_sale [line 1 4 None] 4%Q.
Definition db_sold : db := snd (createSale sale4 db_XY).
Definition refund4 : refund_request := mkRefundReq 1 [mkRefundLine 1 4] None.
Definition db_refunded : db := snd (processRefund refund4 db_sold).

Definition movement_delta_sum (ms : list movement) : Z :=
  fold_right Z.add 0 (map quantity_change ms).

(** C5 (code bug, same defect as C3).  Sale(4) then full Refund(4) restores
    batch X's on_hand and reserved, but the movement log holds only the
    (return, +4) row: no (sale, -4) row exists and the deltas sum to 4. *)
Theorem C5_round_trip_log_does_not_net_to_zero :
  fst (createSale sale4 db_XY) = Created 1
  /\ fst (processRefund refund4 db_sold) = Okay 1
  /\ on_hand_of 1 db_refunded = on_hand_of 1 db_XY
  /\ reserved_of 1 db_refunded = reserved_of 1 db_XY
  /\ map movement_type (stock_movements db_refunded) = ["return"]
  /\ movement_delta_sum (stock_movements db_refunded) = 4.
Proof. vm_compute. auto 7. Qed.

(** C7 (code bug).  The same-batch guard compares the two ids with [===]:
    from = 1 (a number) and to = "1" (a string) pass it, PostgreSQL reads
    both as batch 1, and the two absolute UPDATEs leave 10 + 4 = 14 in the
    batch: stock is created and two movements are logged.  With two equal
    numbers the guard rejects the transfer. *)
Theorem C7_same_batch_transfer_passes_strict_equality :
  fst (createTransfer (mkTransferReq (JNum 1) (JStr "1") 4 (Some "move")) db_XY) = Created 0
  /\ on_hand_of 1 (snd (createTransfer (mkTransferReq (JNum 1) (JStr "1") 4 (Some "move")) db_XY))
     = Some 14
  /\ on_hand_of 2 (snd (createTransfer (mkTransferReq (JNum 1) (JStr "1") 4 (Some "move")) db_XY))
     = Some 10
  /\ List.length (stock_movements
       (snd (createTransfer (mkTransferReq (JNum 1) (JStr "1") 4 (Some "move")) db_XY))) = 2%nat
  /\ createTransfer (mkTransferReq (JNum 1) (JNum 1) 4 (Some "move")) db_XY
     = (Failed 400 "Cannot transfer to the same inventory record", db_XY).
Proof. vm_compute. auto 7. Qed.

(** ** Goods receipt *)

(** The new inventory row a receipt line produces. *)
Definition receipt_row (it : receipt_line) (b : batch) : Prop :=
  batch_number b = rl_batch_number it /\ lot_number b = rl_lot_number it
  /\ expiration_date b = rl_expiration_date it
  /\ quantity_on_hand b = rl_quantity_received it
  /\ quantity_reserved b = 0 /\ status b = Active.

Lemma receive_items_appends (poid : Z) (l : list receipt_line) (s s1 : db) u :
  receive_items poid l s = inr (u, s1) ->
  exists added, inventory s1 = (inventory s ++ added)%list /\ Forall2 receipt_row l added.
Proof.
  revert s. induction l as [|it t IH]; intros s H.
  - simpl in H. injection H as _ <-. exists []. rewrite app_nil_r. auto.
  - simpl in H. unfold bind at 1, get at 1 in H.
    destruct (find_po_item (rl_po_item_id it) poid s) as [poItem|]; [|discriminate].
    destruct (quantity_ordered poItem <? _); [discriminate|].
    apply bind_ok in H as (u1 & s2 & Hupd & H).
    unfold update_po_item, bind, get, put in Hupd. injection Hupd as _ <-.
    unfold bind at 1, get at 1 in H.
    destruct (find _ (purchase_orders _)) as [po|]; [|discriminate].
    apply bind_ok in H as (u2 & s3 & Hins & H).
    unfold insert_inventory, bind, get, put in Hins. injection Hins as _ <-.
    apply IH in H as (added & Hinv & Hrows).
    eexists. split.
    + rewrite Hinv. simpl. rewrite <- app_assoc. reflexivity.
    + constructor; [|exact Hrows].
      unfold receipt_row. simpl. repeat split; reflexivity.
Qed.

(** C6 (amended).  A goods receipt that succeeds appends one new active
    batch per received line (the line's batch/lot number and expiration,
    on_hand = quantity received, reserved 0) after the existing rows, which
    it leaves unchanged, even when one of them has the same batch/lot number
    and expiration. *)
Theorem C6_receipt_appends_new_batches (req : receipt_request) (s s' : db) (id : Z) :
  receiveGoods req s = (Okay id, s') ->
  exists added, inventory s' = (inventory s ++ added)%list
                /\ Forall2 receipt_row (rc_items req) added.
Proof.
  unfold receiveGoods. intro H.
  destruct (rc_items req) eqn:Hitems; [discriminate|].
  unfold transaction in H.
  destruct (receive_goods_tx req s) as [e|[a s2]] eqn:Etx; [discriminate|].
  injection H as _ <-.
  unfold receive_goods_tx in Etx. apply bind_ok in Etx as (u & s1 & Hrec & Hk).
  unfold bind, get, put in Hk. injection Hk as _ <-.
  apply receive_items_appends in Hrec as (added & Hinv & Hrows).
  rewrite Hitems in Hrows. exists added. simpl. auto.
Qed.

Lemma C6_receipt_appends_new_batches_witness :
  exists added,
    inventory (snd (receiveGoods receipt_same_as_X db_po)) = (inventory db_po ++ added)%list
    /\ Forall2 receipt_row (rc_items receipt_same_as_X) added.
Proof.
  apply (C6_receipt_appends_new_batches receipt_same_as_X db_po
           (snd (receiveGoods receipt_same_as_X db_po)) 1).
  vm_compute. reflexivity.
Defined.

(** C6 counterexample: receiving 6 units with batch X's batch number, lot
    number and expiration leaves X at 10 and creates a third batch holding
    6; no movement is written. *)
Lemma C6_matching_receipt_creates_batch_counterexample :
  fst (receiveGoods receipt_same_as_X db_po) = Okay 1
  /\ on_hand_of 1 (snd (receiveGoods receipt_same_as_X db_po)) = Some 10
  /\ List.length (inventory (snd (receiveGoods receipt_same_as_X db_po))) = 3%nat
  /\ stock_movements (snd (receiveGoods receipt_same_as_X db_po)) = [].
Proof. vm_compute. auto. Qed.

(** C9.  Within the 90-day horizon the report's urgency level is 'expired'
    before today, 'critical' for 0..30 days, 'warning' for 31..60 days and
    'watch' beyond; the alert generator's CASE yields the matching alert
    type (expired, 30_days, 60_days, 90_days) for every such date. *)
Theorem C9_expiry_tiers (expiration today : Z) :
  expiration - today <= 90 ->
  (urgency_level expiration today = "expired" <-> expiration < today)
  /\ (urgency_level expiration today = "critical" <-> 0 <= expiration - today <= 30)
  /\ (urgency_level expiration today = "warning" <-> 31 <= expiration - today <= 60)
  /\ (urgency_level expiration today = "watch" <-> 61 <= expiration - today)
  /\ alert_type expiration today = Some (alert_of_urgency (urgency_level expiration today)).
Proof.
  intro Hh. unfold urgency_level, alert_type.
  destruct (Z.ltb_spec expiration today), (Z.leb_spec (expiration - today) 30),
    (Z.leb_spec (expiration - today) 60), (Z.leb_spec expiration (today + 30)),
    (Z.leb_spec expiration (today + 60)), (Z.leb_spec expiration (today + 90));
  repeat split; intros; first [reflexivity | discriminate | lia].
Qed.

Lemma C9_expiry_tiers_witness :
  19723 - 19700 <= 90
  /\ (urgency_level 19723 19700 = "expired" <-> 19723 < 19700)
  /\ (urgency_level 19723 19700 = "critical" <-> 0 <= 19723 - 19700 <= 30)
  /\ (urgency_level 19723 19700 = "warning" <-> 31 <= 19723 - 19700 <= 60)
  /\ (urgency_level 19723 19700 = "watch" <-> 61 <= 19723 - 19700)
  /\ alert_type 19723 19700 = Some (alert_of_urgency (urgency_level 19723 19700)).
Proof. split; [lia|]. apply C9_expiry_tiers. lia. Defined.

(** ** Refunds *)

Lemma refund_items_sales (sid : Z) (l : list refund_line) (total : Q) (s s1 : db) r :
  refund_items sid l total s = inr (r, s1) -> sales s1 = sales s.
Proof.
  revert total s. induction l as [|ri t IH]; intros total s H.
  - simpl in H. injection H as _ <-. reflexivity.
  - simpl in H. unfold bind at 1, get at 1 in H.
    destruct (find_sale_item (saleItemId ri) sid s) as [it|]; [|discriminate].
    destruct (si_quantity it <? quantityToRefund ri); [discriminate|].
    apply bind_ok in H as (u1 & s2 & Hu & H). rewrite update_inventory_run in Hu.
    injection Hu as _ <-.
    apply bind_ok in H as (u2 & s3 & Hm & H).
    unfold insert_return_movements, bind, get, put in Hm. injection Hm as _ <-.
    apply IH in H. rewrite H. reflexivity.
Qed.

Lemma no_completed_after_status_update (l : list sale) (sid : Z) (st : string) :
  String.eqb st "completed" = false ->
  find (fun x => (sale_id x =? sid) && String.eqb (payment_status x) "completed")
       (map (fun x => if sale_id x =? sid then mkSale (sale_id x) (total_amount x) st else x) l)
  = None.
Proof.
  intro Hst. induction l as [|x t IH]; [reflexivity|].
  simpl. destruct (sale_id x =? sid) eqn:E; simpl.
  - rewrite E, Hst. simpl. exact IH.
  - rewrite E. simpl. exact IH.
Qed.

(** After a refund call succeeds on a sale, no 'completed' row with that
    sale id is left. *)
Lemma processRefund_closes_sale (req : refund_request) (s s1 : db) (sid : Z) :
  processRefund req s = (Okay sid, s1) -> find_completed_sale sid s1 = None.
Proof.
  unfold processRefund. intro H.
  destruct (r_items req) eqn:Hitems; [discriminate|].
  unfold transaction in H.
  destruct (process_refund_tx req s) as [e|[a s2]] eqn:Etx; [discriminate|].
  injection H as <- <-.
  unfold process_refund_tx, bind at 1, get at 1 in Etx.
  destruct (find_completed_sale (r_saleId req) s) as [sl|]; [|discriminate].
  apply bind_ok in Etx as (total & s3 & Hri & Hk).
  destruct (truthy_Q _ && payment_mismatch _ _); [discriminate|].
  apply bind_ok in Hk as (u & s4 & Hupd & Hret).
  unfold ret in Hret. injection Hret as <- <-.
  unfold update_sale_status, bind, get, put in Hupd. injection Hupd as _ <-.
  unfold find_completed_sale. simpl.
  apply no_completed_after_status_update.
  destruct (Qle_bool _ _); reflexivity.
Qed.

Lemma find_batch_update (id : Z) (g : batch -> batch) (s : db) :
  (forall b, inventory_id (g b) = inventory_id b) ->
  find_batch id (set_inventory
                   (map (fun b => if inventory_id b =? id then g b else b) (inventory s)) s)
  = option_map g (find_batch id s).
Proof.
  intro Hg. unfold find_batch. simpl.
  induction (inventory s) as [|b t IH]; [reflexivity|].
  simpl. destruct (inventory_id b =? id) eqn:E; simpl.
  - rewrite Hg, E. reflexivity.
  - rewrite E. exact IH.
Qed.

Lemma find_sale_item_ext (siid sid : Z) (s s' : db) :
  sale_items s' = sale_items s -> products s' = products s ->
  find_sale_item siid sid s' = find_sale_item siid sid s.
Proof. intros H1 H2. unfold find_sale_item. rewrite H1, H2. reflexivity. Qed.

(** One refund line: it is checked against the sold quantity of its sale
    line only, then adds the refunded units to the line's batch. *)
Lemma refund_items_step (sid : Z) (ri : refund_line) (t : list refund_line) (total : Q)
    (s : db) (it : sale_item) :
  find_sale_item (saleItemId ri) sid s = Some it ->
  quantityToRefund ri <= si_quantity it ->
  exists s',
    refund_items sid (ri :: t) total s
    = refund_items sid t (total + si_line_total it / inject_Z (si_quantity it)
                                  * inject_Z (quantityToRefund ri))%Q s'
    /\ sale_items s' = sale_items s /\ products s' = products s /\ sales s' = sales s
    /\ find_batch (si_inventory_id it) s'
       = option_map (fun b => with_on_hand (quantity_on_hand b + quantityToRefund ri) b)
                    (find_batch (si_inventory_id it) s).
Proof.
  intros Hit Hq. simpl. unfold bind at 1, get at 1. rewrite Hit.
  destruct (Z.ltb_spec (si_quantity it) (quantityToRefund ri)); [lia|].
  eexists. split.
  - unfold bind at 1. rewrite update_inventory_run. cbv beta iota.
    unfold bind at 1, insert_return_movements at 1, bind at 1, get at 1, put at 1.
    reflexivity.
  - simpl. repeat split.
    unfold find_batch at 1. simpl.
    change (find (fun b => inventory_id b =? si_inventory_id it)
              (map (fun b => if inventory_id b =? si_inventory_id it
                             then with_on_hand (quantity_on_hand b + quantityToRefund ri) b
                             else b) (inventory s)))
      with (find_batch (si_inventory_id it)
              (set_inventory
                 (map (fun b => if inventory_id b =? si_inventory_id it
                                then with_on_hand (quantity_on_hand b + quantityToRefund ri) b
                                else b) (inventory s)) s)).
    apply find_batch_update. reflexivity.
Qed.

Definition refund_twice (sid siid q : Z) : refund_request :=
  mkRefundReq sid [mkRefundLine siid q; mkRefundLine siid q] None.

(** C10 (amended).  processRefund only refunds a sale whose status is
    'completed', and a successful call moves it to 'refunded' or 'partial':
    any later refund call on that sale fails and changes nothing.  Within a
    single call, each line's quantityToRefund is compared only with the
    quantity originally sold on the sale line, so listing the same line
    twice with q <= sold both pass and the batch's on_hand rises by 2q. *)
Theorem C10_refund_gate_and_duplicate_lines :
  (forall (req req2 : refund_request) (s s1 : db) (sid : Z),
     processRefund req s = (Okay sid, s1) -> r_saleId req2 = sid ->
     (exists msg, fst (processRefund req2 s1) = Failed 400 msg)
     /\ snd (processRefund req2 s1) = s1)
  /\ (forall (s : db) (sid siid q : Z) (sl : sale) (it : sale_item),
     find_completed_sale sid s = Some sl -> find_sale_item siid sid s = Some it ->
     q <= si_quantity it ->
     fst (processRefund (refund_twice sid siid q) s) = Okay sid
     /\ on_hand_of (si_inventory_id it) (snd (processRefund (refund_twice sid siid q) s))
        = option_map (fun x => x + 2 * q) (on_hand_of (si_inventory_id it) s)).
Proof.
  split.
  - intros req req2 s s1 sid H Hsid.
    apply processRefund_closes_sale in H.
    unfold processRefund.
    destruct (r_items req2); [split; [eexists; reflexivity | reflexivity]|].
    assert (Htx : process_refund_tx req2 s1 = inl "Sale not found or cannot be refunded")
      by (unfold process_refund_tx, bind, get; rewrite Hsid, H; reflexivity).
    unfold transaction. rewrite Htx. split; [eexists; reflexivity | reflexivity].
  - intros s sid siid q sl it Hsale Hit Hq.
    destruct (refund_items_step sid (mkRefundLine siid q) [mkRefundLine siid q] 0%Q s it Hit Hq)
      as (s' & E1 & Hsi1 & Hp1 & Hs1 & Hb1).
    assert (Hit' : find_sale_item (saleItemId (mkRefundLine siid q)) sid s' = Some it)
      by (rewrite (find_sale_item_ext _ _ s s' Hsi1 Hp1); exact Hit).
    destruct (refund_items_step sid (mkRefundLine siid q) []
                (0 + si_line_total it / inject_Z (si_quantity it) * inject_Z q)%Q
                s' it Hit' Hq)
      as (s'' & E2 & Hsi2 & Hp2 & Hs2 & Hb2).
    assert (Htx : exists s3, process_refund_tx (refund_twice sid siid q) s = inr (sid, s3)
                             /\ inventory s3 = inventory s'').
    { unfold process_refund_tx, refund_twice, bind, get. cbn [r_saleId r_items refundAmount]. rewrite Hsale.
      simpl r_items. rewrite E1. cbn [quantityToRefund]. rewrite E2. simpl. eexists. split; reflexivity. }
    destruct Htx as (s3 & Htx & Hinv3).
    unfold processRefund. simpl r_items. cbv iota.
    unfold transaction. rewrite Htx. simpl fst. simpl snd.
    split; [reflexivity|].
    unfold on_hand_of, find_batch at 1. rewrite Hinv3.
    change (find (fun b => inventory_id b =? si_inventory_id it) (inventory s''))
      with (find_batch (si_inventory_id it) s'').
    rewrite Hb2, Hb1. destruct (find_batch (si_inventory_id it) s); cbn [option_map]; [|reflexivity].
    f_equal. unfold with_on_hand. cbn [quantity_on_hand quantityToRefund]. lia.
Qed.

(** The sale of 4 units from batch X: sale 1 with its line 1. *)
Definition sold_sale : sale :=
  match find_completed_sale 1 db_sold with Some x => x | None => mkSale 0 0 "" end.
Definition sold_line : sale_item :=
  match find_sale_item 1 1 db_sold with Some x => x | None => mkSaleItem 0 0 0 0 0 0 end.

Lemma C10_refund_gate_and_duplicate_lines_witness :
  ((exists msg, fst (processRefund refund4 (snd (processRefund refund4 db_sold)))
                = Failed 400 msg)
   /\ snd (processRefund refund4 (snd (processRefund refund4 db_sold)))
      = snd (processRefund refund4 db_sold))
  /\ fst (processRefund (refund_twice 1 1 4) db_sold) = Okay 1
  /\ on_hand_of (si_inventory_id sold_line) (snd (processRefund (refund_twice 1 1 4) db_sold))
     = option_map (fun x => x + 2 * 4) (on_hand_of (si_inventory_id sold_line) db_sold).
Proof.
  destruct C10_refund_gate_and_duplicate_lines as [Hgate Hdup].
  split.
  - apply (Hgate refund4 refund4 db_sold (snd (processRefund refund4 db_sold)) 1).
    + vm_compute. reflexivity.
    + reflexivity.
  - apply (Hdup db_sold 1 1 4 sold_sale sold_line).
    + vm_compute. reflexivity.
    + vm_compute. reflexivity.
    + vm_compute. discriminate.
Defined.

(** C10 counterexample: two successive calls each refunding the 4 units
    sold on the line: the second call is refused and batch X stays at 10. *)
Lemma C10_second_refund_call_refused_counterexample :
  fst (processRefund refund4 db_sold) = Okay 1
  /\ fst (processRefund refund4 (snd (processRefund refund4 db_sold)))
     = Failed 400 "Sale not found or cannot be refunded"
  /\ on_hand_of 1 (snd (processRefund refund4 (snd (processRefund refund4 db_sold))))
     = Some 10.
Proof. vm_compute. auto. Qed.

(** * Further properties of the controllers *)

(** ** Reading a batch back after an UPDATE *)

Lemma find_map_update_same (P : batch -> bool) (id : Z) (g : batch -> batch) (l : list batch) :
  (forall b, P (g b) = P b) -> (forall b, inventory_id (g b) = inventory_id b) ->
  (forall b, P b = true -> inventory_id b = id) ->
  find P (map (fun b => if inventory_id b =? id then g b else b) l) = option_map g (find P l).
Proof.
  intros HP Hid Hsel. induction l as [|x t IH]; [reflexivity|]. simpl.
  destruct (P x) eqn:Px.
  - rewrite (Hsel x Px), Z.eqb_refl, HP, Px. reflexivity.
  - destruct (inventory_id x =? id); [rewrite HP|]; rewrite Px; exact IH.
Qed.

Lemma find_map_update_other (P : batch -> bool) (id : Z) (g : batch -> batch) (l : list batch) :
  (forall b, P (g b) = P b) ->
  (forall b, P b = true -> inventory_id b <> id) ->
  find P (map (fun b => if inventory_id b =? id then g b else b) l) = find P l.
Proof.
  intros HP Hsel. induction l as [|x t IH]; [reflexivity|]. simpl.
  destruct (inventory_id x =? id) eqn:E; [rewrite HP|];
    destruct (P x) eqn:Px; try exact IH; try reflexivity.
  apply Z.eqb_eq in E. exfalso. exact (Hsel x Px E).
Qed.

Lemma find_active_batch_sel (id : Z) (s : db) (b : batch) :
  find_active_batch id s = Some b -> inventory_id b = id.
Proof.
  unfold find_active_batch. intro H. apply find_some in H as [_ H].
  apply andb_prop in H as [H _]. apply andb_prop in H as [H _]. now apply Z.eqb_eq.
Qed.

(** Setting on_hand keeps a batch's id, status and product. *)
Lemma find_active_batch_set_on_hand (a id : Z) (f : batch -> Z) (l : list batch) (s : db) :
  find_active_batch a
    (set_inventory (map (fun b => if inventory_id b =? id then with_on_hand (f b) b else b) l) s)
  = if a =? id
    then option_map (fun b => with_on_hand (f b) b) (find_active_batch a (set_inventory l s))
    else find_active_batch a (set_inventory l s).
Proof.
  unfold find_active_batch. cbn [inventory products set_inventory].
  destruct (Z.eqb_spec a id) as [->|Hne].
  - apply find_map_update_same; [reflexivity|reflexivity|].
    intros b Hb. apply andb_prop in Hb as [Hb _]. apply andb_prop in Hb as [Hb _].
    now apply Z.eqb_eq.
  - apply find_map_update_other; [reflexivity|].
    intros b Hb E. apply andb_prop in Hb as [Hb _]. apply andb_prop in Hb as [Hb _].
    apply Z.eqb_eq in Hb. congruence.
Qed.

Lemma find_active_batch_movements (a : Z) (ms : list movement) (s : db) :
  find_active_batch a (set_movements ms s) = find_active_batch a s.
Proof. reflexivity. Qed.

Lemma find_active_batch_inventory_self (a : Z) (s : db) :
  find_active_batch a (set_inventory (inventory s) s) = find_active_batch a s.
Proof. reflexivity. Qed.

Lemma set_inventory_twice (l l' : list batch) (s : db) :
  set_inventory l (set_inventory l' s) = set_inventory l s.
Proof. reflexivity. Qed.

Lemma lead_digit_fuel_nonneg (fuel : nat) (z : Z) : 0 <= z -> 0 <= lead_digit_fuel fuel z.
Proof.
  revert z. induction fuel as [|f IH]; intros z Hz; cbn; [exact Hz|].
  destruct (z <? 10); [exact Hz|]. apply IH. apply Z.div_pos; lia.
Qed.

Lemma frac_lead_digit_fuel_nonneg (fuel : nat) (n d : Z) :
  0 <= n -> 0 < d -> 0 <= frac_lead_digit_fuel fuel n d.
Proof.
  revert n. induction fuel as [|f IH]; intros n Hn Hd; cbn; [apply Z.div_pos; lia|].
  destruct (d <=? n); [apply Z.div_pos; lia|]. apply IH; lia.
Qed.

(** parseInt of a positive number is never negative. *)
Lemma js_parseInt_number_nonneg (q : Q) : (0 < q)%Q -> 0 <= js_parseInt_number q.
Proof.
  intro Hq. unfold js_parseInt_number.
  assert (Hs : Qle_bool 0 q = true) by (apply Qle_bool_iff; apply Qlt_le_weak; exact Hq).
  rewrite Hs.
  assert (Hn : 0 <= Qnum (Qabs q)) by (destruct q as [n d]; cbn; lia).
  assert (Hd : 0 < Zpos (Qden (Qabs q))) by lia.
  destruct (Qeq_bool q 0); [lia|].
  destruct (Qle_bool _ (Qabs q)).
  - apply Z.mul_nonneg_nonneg; [lia|]. apply lead_digit_fuel_nonneg, Z.div_pos; lia.
  - destruct (Qle_bool _ (Qabs q)).
    + apply Z.mul_nonneg_nonneg; [lia|]. apply Z.div_pos; lia.
    + apply Z.mul_nonneg_nonneg; [lia|]. apply frac_lead_digit_fuel_nonneg; lia.
Qed.

(** X1.  A transfer between two different batch ids (as PostgreSQL reads
    them) that succeeds had a positive quantity and found both batches
    active with the same product.  It moves n = parseInt(quantity) units,
    0 <= n <= the source's on_hand: the source's on_hand drops by n, the
    destination's rises by n, and the linked transfer_out / transfer_in
    movement pair is appended. *)
Theorem createTransfer_moves_stock (f t : jsval) (a b : Z) (q : Q) (r : option string)
    (s s' : db) (x : Z) :
  pg_int f = Some a -> pg_int t = Some b -> a <> b ->
  createTransfer (mkTransferReq f t q r) s = (Created x, s') ->
  exists bf bt,
    find_active_batch a s = Some bf /\ find_active_batch b s = Some bt
    /\ product_id bf = product_id bt /\ (0 < q)%Q
    /\ 0 <= js_parseInt_number q <= quantity_on_hand bf
    /\ find_active_batch a s'
       = Some (with_on_hand (quantity_on_hand bf - js_parseInt_number q) bf)
    /\ find_active_batch b s'
       = Some (with_on_hand (quantity_on_hand bt + js_parseInt_number q) bt)
    /\ stock_movements s'
       = (stock_movements s
          ++ [mkMovement a (product_id bf) "transfer" (- js_parseInt_number q)
                         (quantity_on_hand bf) (quantity_on_hand bf - js_parseInt_number q)
                         b "transfer_out";
              mkMovement b (product_id bt) "transfer" (js_parseInt_number q)
                         (quantity_on_hand bt) (quantity_on_hand bt + js_parseInt_number q)
                         a "transfer_in"])%list.
Proof.
  intros Hf Ht Hab H. unfold createTransfer in H.
  cbn [fromInventoryId toInventoryId t_quantity t_reason] in H.
  destruct (Qle_bool q 0) eqn:Hq;
    [rewrite orb_true_r in H; discriminate|rewrite orb_false_r in H].
  assert (Hq' : (0 < q)%Q).
  { apply Qnot_le_lt. intro Hle. apply Qle_bool_iff in Hle. congruence. }
  destruct (negb (js_truthy f) || negb (js_truthy t)); [discriminate|].
  destruct (js_strict_eq f t); [discriminate|].
  destruct (blank_reason r); [discriminate|].
  unfold transaction in H.
  destruct (create_transfer_tx _ s) as [e|[u s2]] eqn:Etx; cbv beta iota in H; [discriminate|].
  injection H as _ <-.
  apply Z.eqb_neq in Hab as Hab'.
  pose proof (js_parseInt_number_nonneg q Hq') as Hn.
  remember (js_parseInt_number q) as n eqn:En.
  unfold create_transfer_tx, select_active_for_update in Etx.
  cbn [fromInventoryId toInventoryId t_quantity] in Etx. rewrite Hf, Ht, <- En in Etx.
  apply bind_ok in Etx as [r1 [s1 [E1 Etx]]]. cbv [bind get ret] in E1.
  injection E1 as <- <-.
  destruct (find_active_batch a s) as [bf|] eqn:Hbf; [|discriminate].
  apply bind_ok in Etx as [r2 [s3 [E2 Etx]]]. cbv [bind get ret] in E2.
  injection E2 as <- <-.
  destruct (find_active_batch b s) as [bt|] eqn:Hbt; [|discriminate].
  destruct (Z.eqb_spec (product_id bf) (product_id bt)) as [Hp|]; [|discriminate].
  cbn [negb] in Etx.
  destruct (Z.ltb_spec (quantity_on_hand bf) n); [discriminate|].
  apply find_active_batch_sel in Hbf as Ida. apply find_active_batch_sel in Hbt as Idb.
  rewrite Ida, Idb in Etx.
  unfold bind, insert_movement, bind, get, put in Etx.
  rewrite !update_inventory_run in Etx. cbv beta iota in Etx.
  injection Etx as <-.
  exists bf, bt. subst s2. repeat split; try assumption; try lia.
  - rewrite !find_active_batch_movements, set_inventory_twice.
    rewrite (find_active_batch_set_on_hand a b (fun _ => quantity_on_hand bt + n)), Hab'.
    rewrite (find_active_batch_set_on_hand a a (fun _ => quantity_on_hand bf - n)), Z.eqb_refl.
    rewrite find_active_batch_inventory_self, Hbf. reflexivity.
  - rewrite !find_active_batch_movements, set_inventory_twice.
    rewrite (find_active_batch_set_on_hand b b (fun _ => quantity_on_hand bt + n)), Z.eqb_refl.
    rewrite (find_active_batch_set_on_hand b a (fun _ => quantity_on_hand bf - n)).
    destruct (Z.eqb_spec b a); [congruence|].
    rewrite find_active_batch_inventory_self, Hbt. reflexivity.
  - cbn [stock_movements set_movements]. rewrite <- app_assoc. reflexivity.
Qed.

(** A quantity of 2.5 passes the [quantity <= 0] check and moves 2 units. *)
Definition transfer_1_to_2 : transfer_request :=
  mkTransferReq (JNum 1) (JStr " 2") (5 # 2) (Some "restock front shelf").
Definition db_transferred : db := snd (createTransfer transfer_1_to_2 db_XY).

Lemma createTransfer_moves_stock_witness :
  createTransfer transfer_1_to_2 db_XY = (Created 0, db_transferred)
  /\ find_active_batch 1 db_transferred = Some (with_on_hand 8 batchX)
  /\ find_active_batch 2 db_transferred = Some (with_on_hand 12 batchY).
Proof.
  assert (Hrun : createTransfer transfer_1_to_2 db_XY = (Created 0, db_transferred))
    by (vm_compute; reflexivity).
  destruct (createTransfer_moves_stock (JNum 1) (JStr " 2") 1 2 (5 # 2)
              (Some "restock front shelf") db_XY db_transferred 0)
    as (bf & bt & H1 & H2 & _ & _ & _ & H5 & H6 & _);
    [vm_compute; reflexivity | vm_compute; reflexivity | lia | exact Hrun |].
  vm_compute in H1, H2. injection H1 as <-. injection H2 as <-.
  split; [exact Hrun|]. rewrite H5, H6. split; reflexivity.
Defined.

(** X2.  An adjustment that succeeds found the batch active, kept its
    on_hand non-negative, set it to the old value plus the change, and
    appended one movement recording the change with its before and after
    quantities. *)
Theorem createAdjustment_effect (req : adjustment_request) (s s' : db) (x : Z) :
  createAdjustment req s = (Created x, s') ->
  exists b,
    x = a_inventoryId req
    /\ find_active_batch (a_inventoryId req) s = Some b
    /\ 0 <= quantity_on_hand b + quantityChange req
    /\ find_active_batch (a_inventoryId req) s'
       = Some (with_on_hand (quantity_on_hand b + quantityChange req) b)
    /\ stock_movements s'
       = (stock_movements s
          ++ [mkMovement (a_inventoryId req) (product_id b) (adjustmentType req)
                         (quantityChange req) (quantity_on_hand b)
                         (quantity_on_hand b + quantityChange req) 0 ""])%list.
Proof.
  unfold createAdjustment. intro H.
  destruct ((a_inventoryId req =? 0) || (quantityChange req =? 0)); [discriminate|].
  destruct (blank_reason (a_reason req)); [discriminate|].
  unfold transaction in H.
  destruct (create_adjustment_tx req s) as [e|[y s2]] eqn:Etx; cbv beta iota in H;
    [discriminate|].
  injection H as <- <-.
  unfold create_adjustment_tx, bind at 1, get at 1 in Etx.
  destruct (find_active_batch (a_inventoryId req) s) as [b|] eqn:Hb; [|discriminate].
  destruct (Z.ltb_spec (quantity_on_hand b + quantityChange req) 0); [discriminate|].
  unfold bind, insert_movement, bind, get, put, ret in Etx.
  rewrite update_inventory_run in Etx. cbv beta iota in Etx.
  injection Etx as <- <-.
  exists b. repeat split; try lia.
  - rewrite find_active_batch_movements.
    rewrite (find_active_batch_set_on_hand (a_inventoryId req) (a_inventoryId req)
               (fun _ => quantity_on_hand b + quantityChange req)), Z.eqb_refl.
    rewrite find_active_batch_inventory_self, Hb. reflexivity.
Qed.

Definition adjust_down_4 : adjustment_request :=
  mkAdjReq 2 "damage" (-4) (Some "broken seal").
Definition db_adjusted : db := snd (createAdjustment adjust_down_4 db_XY).

Lemma createAdjustment_effect_witness :
  createAdjustment adjust_down_4 db_XY = (Created 2, db_adjusted)
  /\ find_active_batch 2 db_adjusted = Some (with_on_hand 6 batchY).
Proof.
  assert (Hrun : createAdjustment adjust_down_4 db_XY = (Created 2, db_adjusted))
    by (vm_compute; reflexivity).
  destruct (createAdjustment_effect adjust_down_4 db_XY db_adjusted 2 Hrun)
    as (b & _ & H1 & _ & H3 & _).
  vm_compute in H1. injection H1 as <-.
  split; [exact Hrun | exact H3].
Defined.

(** A refund line asking for more than its sale line sold makes the whole
    item loop fail, wherever the line stands in the request. *)
Lemma refund_items_rejects_over (sid : Z) (l : list refund_line) (total : Q) (s : db)
    (ri : refund_line) (it : sale_item) r :
  In ri l -> find_sale_item (saleItemId ri) sid s = Some it ->
  si_quantity it < quantityToRefund ri ->
  refund_items sid l total s <> inr r.
Proof.
  revert total s. induction l as [|x t IH]; intros total s Hin Hit Hq; [destruct Hin|].
  destruct Hin as [->|Hin].
  - simpl. unfold bind at 1, get at 1. rewrite Hit.
    destruct (Z.ltb_spec (si_quantity it) (quantityToRefund ri)); [|lia]. discriminate.
  - destruct (find_sale_item (saleItemId x) sid s) as [ix|] eqn:Hx.
    + destruct (Z.ltb_spec (si_quantity ix) (quantityToRefund x)).
      * simpl. unfold bind at 1, get at 1. rewrite Hx.
        destruct (Z.ltb_spec (si_quantity ix) (quantityToRefund x)); [|lia]. discriminate.
      * destruct (refund_items_step sid x t total s ix Hx ltac:(lia))
          as (s1 & Hrun & Hsi & Hpr & _ & _).
        rewrite Hrun. apply IH; [exact Hin| |exact Hq].
        rewrite (find_sale_item_ext _ _ s s1 Hsi Hpr). exact Hit.
    + simpl. unfold bind at 1, get at 1. rewrite Hx. discriminate.
Qed.

(** X3.  A refund request in which some line asks for more units than its
    sale line sold is refused with a 400 and changes nothing. *)
Theorem processRefund_rejects_over_refund (req : refund_request) (s : db)
    (ri : refund_line) (it : sale_item) :
  In ri (r_items req) ->
  find_sale_item (saleItemId ri) (r_saleId req) s = Some it ->
  si_quantity it < quantityToRefund ri ->
  exists e, processRefund req s = (Failed 400 e, s).
Proof.
  intros Hin Hit Hq. unfold processRefund.
  destruct (r_items req) as [|x t] eqn:Hl; [destruct Hin|].
  unfold transaction.
  destruct (process_refund_tx req s) as [e|[y s2]] eqn:Etx; [eexists; reflexivity|].
  exfalso. unfold process_refund_tx, bind at 1, get at 1 in Etx.
  destruct (find_completed_sale (r_saleId req) s); [|discriminate].
  apply bind_ok in Etx as (total & s3 & Hri & _).
  rewrite Hl in Hri.
  exact (refund_items_rejects_over _ _ _ _ ri it _ Hin Hit Hq Hri).
Qed.

Definition refund_5_of_4 : refund_request := mkRefundReq 1 [mkRefundLine 1 5] None.

Lemma processRefund_rejects_over_refund_witness :
  exists e, processRefund refund_5_of_4 db_sold = (Failed 400 e, db_sold).
Proof.
  apply (processRefund_rejects_over_refund refund_5_of_4 db_sold (mkRefundLine 1 5)
           sold_line).
  - left. reflexivity.
  - vm_compute. reflexivity.
  - vm_compute. reflexivity.
Defined.

(** ** createSale over any number of lines *)

(** Units of the processed items that name batch [id]. *)
Definition qty_for (id : Z) (l : list processed_item) : Z :=
  fold_right (fun pi acc => (if id =? pi_inventoryId pi then pi_quantity pi else 0) + acc) 0 l.

(** Units of the sale_items rows that name batch [id]. *)
Definition sold_from (id : Z) (rows : list sale_item) : Z :=
  fold_right (fun i acc => (if id =? si_inventory_id i then si_quantity i else 0) + acc) 0 rows.

(** What the item loop establishes for one line: the processed item keeps
    the line's product and quantity, names an active batch of that product,
    and names the pinned batch when the line pins one. *)
Definition line_ok (s : db) (it : sale_line) (pi : processed_item) : Prop :=
  pi_productId pi = productId it /\ pi_quantity pi = quantity it
  /\ (exists b, In b (inventory s) /\ inventory_id b = pi_inventoryId pi
                /\ product_id b = productId it /\ is_active (status b) = true)
  /\ (truthy_id (inventoryId it) = true -> inventoryId it = Some (pi_inventoryId pi)).

Lemma process_item_run (rx : option string) (it : sale_line) (s s1 : db) pi lt tx :
  process_item rx it s = inr ((pi, lt, tx), s1) ->
  line_ok s it pi
  /\ s1 = set_inventory
            (map (fun x => if inventory_id x =? pi_inventoryId pi
                           then with_reserved (quantity_reserved x + quantity it) x
                           else x) (inventory s)) s.
Proof.
  intro H. unfold process_item in H.
  destruct ((productId it =? 0) || (quantity it <=? 0)); [discriminate|].
  unfold bind, get in H.
  destruct (find_active_product (productId it) s) as [p|]; [|discriminate].
  destruct (p_requires_prescription p && negb (truthy_str rx)); [discriminate|].
  destruct (truthy_id (inventoryId it)) eqn:Hpin.
  - destruct (select_pinned _ (productId it) (quantity it) s) as [b|] eqn:Hsel;
      [|discriminate].
    rewrite update_inventory_run in H. cbv beta iota in H.
    unfold ret in H. injection H as <- _ _ <-. cbn [pi_productId pi_quantity pi_inventoryId].
    unfold select_pinned in Hsel. apply find_some in Hsel as [Hin Hp].
    apply andb_prop in Hp as [Hp _]. apply andb_prop in Hp as [Hp Hact].
    apply andb_prop in Hp as [Hid Hpid]. apply Z.eqb_eq in Hid, Hpid.
    repeat split; auto.
    + exists b. auto.
    + intros _. revert Hid Hpin. destruct (inventoryId it); cbn; [congruence|discriminate].
  - destruct (select_fifo (productId it) (quantity it) s) as [b|] eqn:Hsel;
      [|discriminate].
    rewrite update_inventory_run in H. cbv beta iota in H.
    unfold ret in H. injection H as <- _ _ <-. cbn [pi_productId pi_quantity pi_inventoryId].
    apply select_fifo_spec in Hsel as (Hin & Hel & _).
    unfold fifo_eligible in Hel.
    apply andb_prop in Hel as [Hel _]. apply andb_prop in Hel as [Hpid Hact].
    apply Z.eqb_eq in Hpid.
    repeat split; auto.
    + exists b. auto.
    + intro Ht. congruence.
Qed.

(** Reservations only touch quantity_reserved: a batch of the new table
    comes from one of the old table with the same id, product and status. *)
Lemma line_ok_after_reserve (s : db) (g : batch -> batch) (it : sale_line) pi :
  (forall b, inventory_id (g b) = inventory_id b /\ product_id (g b) = product_id b
             /\ status (g b) = status b) ->
  line_ok (set_inventory (map g (inventory s)) s) it pi -> line_ok s it pi.
Proof.
  intros Hg (H1 & H2 & (b & Hin & Hid & Hpid & Hact) & H4).
  repeat split; auto.
  cbn [inventory set_inventory] in Hin. apply in_map_iff in Hin as (b0 & <- & Hin0).
  destruct (Hg b0) as (E1 & E2 & E3).
  exists b0. rewrite <- E1, <- E2, <- E3. auto.
Qed.

Lemma process_items_run (rx : option string) (l : list sale_line) (sub tax : Q)
    (acc : list processed_item) (s s1 : db) sub' tax' out :
  process_items rx l sub tax acc s = inr ((sub', tax', out), s1) ->
  exists new, out = (acc ++ new)%list /\ Forall2 (line_ok s) l new
    /\ s1 = set_inventory
              (map (fun x => with_reserved (quantity_reserved x
                                            + qty_for (inventory_id x) new) x)
                   (inventory s)) s.
Proof.
  revert sub tax acc s. induction l as [|it t IH]; intros sub tax acc s H.
  - simpl in H. injection H as _ _ <- <-. exists []. split; [symmetry; apply app_nil_r|].
    split; [constructor|].
    destruct s. unfold set_inventory. cbn. f_equal.
    induction inventory0 as [|b bs IHb]; [reflexivity|]. cbn. rewrite <- IHb.
    f_equal. destruct b. unfold with_reserved. cbn. f_equal. lia.
  - simpl in H. apply bind_ok in H as ([[pi lt] tx] & s0 & Hi & H).
    apply process_item_run in Hi as [Hok ->].
    apply IH in H as (new & -> & Hall & ->).
    exists (pi :: new). split; [rewrite <- app_assoc; reflexivity|]. split.
    + constructor; [exact Hok|].
      eapply Forall2_impl; [|exact Hall]. intros it' pi'.
      apply line_ok_after_reserve.
      intro b. destruct (inventory_id b =? pi_inventoryId pi); repeat split.
    + rewrite set_inventory_twice. f_equal. cbn [inventory set_inventory].
      rewrite map_map. apply map_ext. intro b.
      destruct Hok as (_ & Hq & _).
      cbn [qty_for fold_right]. fold (qty_for (inventory_id b) new).
      destruct (inventory_id b =? pi_inventoryId pi); destruct b;
        unfold with_reserved; cbn; f_equal; lia.
Qed.

Lemma insert_sale_items_run (sid : Z) (l : list processed_item) (s s2 : db) u :
  insert_sale_items sid l s = inr (u, s2) ->
  exists rows,
    sale_items s2 = (sale_items s ++ rows)%list
    /\ Forall2 (fun pi row => si_sale_id row = sid /\ si_product_id row = pi_productId pi
                              /\ si_inventory_id row = pi_inventoryId pi
                              /\ si_quantity row = pi_quantity pi) l rows
    /\ inventory s2
       = map (fun b => with_reserved (quantity_reserved b - qty_for (inventory_id b) l)
                         (with_on_hand (quantity_on_hand b - qty_for (inventory_id b) l) b))
             (inventory s).
Proof.
  revert s. induction l as [|pi t IH]; intros s H.
  - simpl in H. injection H as _ <-. exists []. split; [symmetry; apply app_nil_r|].
    split; [constructor|].
    induction (inventory s) as [|b bs IHb]; [reflexivity|]. cbn [map]. rewrite <- IHb.
    f_equal. destruct b. unfold with_reserved, with_on_hand. cbn. f_equal; lia.
  - simpl in H. unfold bind at 1, get at 1, bind at 1, put at 1 in H.
    apply bind_ok in H as (u1 & s1 & Hu & H). rewrite update_inventory_run in Hu.
    injection Hu as _ <-.
    apply IH in H as (rows & Hsi & Hall & Hinv).
    eexists (_ :: rows). split; [|split].
    + rewrite Hsi. cbn. rewrite <- app_assoc. reflexivity.
    + constructor; [cbn; auto|exact Hall].
    + rewrite Hinv. cbn [inventory set_inventory set_sale_items].
      rewrite map_map. apply map_ext. intro b.
      cbn [qty_for fold_right]. fold (qty_for (inventory_id b) t).
      destruct (inventory_id b =? pi_inventoryId pi); destruct b;
        unfold with_reserved, with_on_hand; cbn; f_equal; lia.
Qed.

Lemma sold_from_rows (sid id : Z) (l : list processed_item) (rows : list sale_item) :
  Forall2 (fun pi row => si_sale_id row = sid /\ si_product_id row = pi_productId pi
                         /\ si_inventory_id row = pi_inventoryId pi
                         /\ si_quantity row = pi_quantity pi) l rows ->
  sold_from id rows = qty_for id l.
Proof.
  induction 1 as [|pi row l' rows' (_ & _ & Hid & Hq) _ IH]; [reflexivity|].
  cbn [sold_from qty_for fold_right]. fold (sold_from id rows') (qty_for id l').
  rewrite Hid, Hq, IH. reflexivity.
Qed.

(** The sale_items row written for a request line of sale [sid], read
    against the inventory [s] the sale started from. *)
Definition row_serves (sid : Z) (s : db) (it : sale_line) (row : sale_item) : Prop :=
  si_sale_id row = sid /\ si_product_id row = productId it /\ si_quantity row = quantity it
  /\ (exists b, In b (inventory s) /\ inventory_id b = si_inventory_id row
                /\ product_id b = productId it /\ is_active (status b) = true)
  /\ (truthy_id (inventoryId it) = true -> inventoryId it = Some (si_inventory_id row)).

(** A successful createSale, line by line: one sale_items row per request
    line, in order, for the new sale, with the line's product and quantity,
    naming an active batch of that product (the pinned one when the line
    pins a batch); each batch's on_hand drops by the units those rows take
    from it and its quantity_reserved ends where it started. *)
Lemma createSale_run (req : sale_request) (s s' : db) (sid : Z) :
  createSale req s = (Created sid, s') ->
  exists rows,
    sale_items s' = (sale_items s ++ rows)%list
    /\ Forall2 (row_serves sid s) (items req) rows
    /\ inventory s'
       = map (fun b => with_on_hand (quantity_on_hand b - sold_from (inventory_id b) rows) b)
             (inventory s).
Proof.
  intro H. unfold createSale in H.
  destruct (items req) as [|it0 t0] eqn:Hitems; [discriminate|].
  destruct (negb (truthy_str (paymentMethod req))); [discriminate|].
  destruct (negb (existsb _ valid_payment_methods)); [discriminate|].
  unfold transaction in H.
  destruct (create_sale_tx req s) as [e|[a s2]] eqn:Etx; [discriminate|].
  injection H as <- <-.
  unfold create_sale_tx in Etx. apply bind_ok in Etx as ([[sub tax] out] & s1 & Hp & Hk).
  apply process_items_run in Hp as (new & Hout & Hall & ->). cbn [app] in Hout. subst out.
  cbv beta iota in Hk.
  destruct (payments_mismatch _ _ _); [discriminate|].
  unfold bind at 1, get at 1 in Hk. unfold bind at 1, put at 1 in Hk.
  apply bind_ok in Hk as (u & s3 & Hins & Hret).
  unfold ret in Hret. injection Hret as <- <-.
  apply insert_sale_items_run in Hins as (rows & Hsi & Hrows & Hinv).
  exists rows. split; [exact Hsi|]. split.
  - rewrite <- Hitems. clear -Hall Hrows.
    revert rows Hrows. induction Hall as [|it pi l' new' Hok _ IH]; intros rows Hrows;
      inversion Hrows as [|pi0 row l0 rows' Hr Hrs]; subst; constructor.
    + unfold row_serves. destruct Hok as (Hp & Hq & (b & Hin & Hid & Hpid & Hact) & Hpin).
      destruct Hr as (Hs & Hrp & Hri & Hrq).
      repeat split; try congruence.
      * exists b. rewrite Hri. auto.
      * rewrite Hri. exact Hpin.
    + apply IH. exact Hrs.
  - rewrite Hinv. cbn [inventory set_inventory set_sales].
    rewrite map_map. apply map_ext. intro b.
    rewrite (sold_from_rows _ _ _ _ Hrows).
    destruct b. unfold with_reserved, with_on_hand. cbn. f_equal. lia.
Qed.

(** X4.  A createSale call that succeeds writes one sale_items row per
    request line, in the lines' order, appended to the table: each row
    belongs to the new sale, repeats its line's product and quantity, and
    names an active batch of that product, the pinned batch when the line
    gives a (non-zero) inventoryId. *)
Theorem createSale_rows_per_line (req : sale_request) (s s' : db) (sid : Z) :
  createSale req s = (Created sid, s') ->
  exists rows, sale_items s' = (sale_items s ++ rows)%list
               /\ Forall2 (row_serves sid s) (items req) rows.
Proof.
  intro H. destruct (createSale_run req s s' sid H) as (rows & Hsi & Hall & _).
  exists rows. auto.
Qed.

(** X5.  After a createSale call that succeeds, every batch keeps its
    quantity_reserved and everything but on_hand, and its on_hand has
    dropped by exactly the units that the sale's new rows take from it. *)
Theorem createSale_stock_bookkeeping (req : sale_request) (s s' : db) (sid : Z) :
  createSale req s = (Created sid, s') ->
  exists rows, sale_items s' = (sale_items s ++ rows)%list
    /\ inventory s'
       = map (fun b => with_on_hand (quantity_on_hand b - sold_from (inventory_id b) rows) b)
             (inventory s).
Proof.
  intro H. destruct (createSale_run req s s' sid H) as (rows & Hsi & _ & Hinv).
  exists rows. auto.
Qed.

(** Line 1 pins batch Y, line 2 is served first-expiry-first from X. *)
Definition two_line_sale : sale_request :=
  cash_sale [line 1 3 (Some 2); line 1 4 None] 7%Q.
Definition db_two : db := snd (createSale two_line_sale db_XY).

Lemma createSale_rows_per_line_witness :
  exists rows, sale_items db_two = rows
    /\ Forall2 (row_serves 1 db_XY) (items two_line_sale) rows
    /\ map si_inventory_id rows = [2; 1].
Proof.
  destruct (createSale_rows_per_line two_line_sale db_XY db_two 1) as (rows & Hsi & Hall);
    [vm_compute; reflexivity|].
  exists rows. cbn [sale_items db_XY app] in Hsi. rewrite <- Hsi.
  split; [reflexivity|]. split; [rewrite Hsi; exact Hall|]. vm_compute. reflexivity.
Defined.

Lemma createSale_stock_bookkeeping_witness :
  inventory db_two = [with_on_hand 6 batchX; with_on_hand 7 batchY].
Proof.
  destruct (createSale_stock_bookkeeping two_line_sale db_XY db_two 1) as (rows & Hsi & Hinv);
    [vm_compute; reflexivity|].
  cbn [sale_items db_XY app] in Hsi. rewrite Hinv, <- Hsi. vm_compute. reflexivity.
Defined.

(** ** receiveGoods: the ordered limit and the order's status *)

Lemma NoDup_map_inj {A} (f : A -> Z) (l : list A) (x y : A) :
  NoDup (map f l) -> In x l -> In y l -> f x = f y -> x = y.
Proof.
  induction l as [|a t IH]; intros Hnd Hx Hy Hf; [destruct Hx|].
  cbn [map] in Hnd. apply NoDup_cons_iff in Hnd as [Hna Hnd].
  destruct Hx as [<-|Hx], Hy as [<-|Hy]; auto.
  - exfalso. apply Hna. rewrite Hf. apply in_map. exact Hy.
  - exfalso. apply Hna. rewrite <- Hf. apply in_map. exact Hx.
Qed.

Lemma find_po_item_some (itemid poid : Z) (s : db) (i : po_item) :
  find_po_item itemid poid s = Some i ->
  In i (purchase_order_items s) /\ po_item_id i = itemid /\ poi_po_id i = poid.
Proof.
  unfold find_po_item. intro H. apply find_some in H as [Hin H].
  apply andb_prop in H as [H _]. apply andb_prop in H as [H1 H2].
  apply Z.eqb_eq in H1, H2. auto.
Qed.

(** No PO line holds more than was ordered. *)
Definition within_ordered (s : db) : Prop :=
  Forall (fun i => quantity_received i <= quantity_ordered i) (purchase_order_items s).

Lemma receive_items_within (poid : Z) (l : list receipt_line) (s s1 : db) u :
  NoDup (map po_item_id (purchase_order_items s)) -> within_ordered s ->
  receive_items poid l s = inr (u, s1) ->
  within_ordered s1
  /\ map po_item_id (purchase_order_items s1) = map po_item_id (purchase_order_items s).
Proof.
  revert s. induction l as [|it t IH]; intros s Hnd Hw H.
  - simpl in H. injection H as _ <-. auto.
  - simpl in H. unfold bind at 1, get at 1 in H.
    destruct (find_po_item (rl_po_item_id it) poid s) as [poItem|] eqn:Hf; [|discriminate].
    destruct (Z.ltb_spec (quantity_ordered poItem)
                (quantity_received poItem + rl_quantity_received it)); [discriminate|].
    apply bind_ok in H as (u1 & s2 & Hupd & H).
    unfold update_po_item, bind, get, put in Hupd. injection Hupd as _ <-.
    unfold bind at 1, get at 1 in H.
    destruct (find _ (purchase_orders _)) as [po|]; [|discriminate].
    apply bind_ok in H as (u2 & s3 & Hins & H).
    unfold insert_inventory, bind, get, put in Hins. injection Hins as _ <-.
    apply find_po_item_some in Hf as (Hin & Hid & _).
    apply IH in H as [Hw' Hids'].
    + split; [exact Hw'|]. rewrite Hids'.
      cbn [purchase_order_items set_inventory set_po_items]. rewrite map_map.
      apply map_ext. intro i. destruct (po_item_id i =? rl_po_item_id it); reflexivity.
    + match goal with |- NoDup ?L => replace L with (map po_item_id (purchase_order_items s)) end;
        [exact Hnd|].
      cbn [purchase_order_items set_inventory set_po_items]. rewrite map_map. symmetry.
      apply map_ext. intro i. destruct (po_item_id i =? rl_po_item_id it); reflexivity.
    + unfold within_ordered in *. cbn [purchase_order_items set_inventory set_po_items].
      apply Forall_map. apply Forall_forall. intros i Hi.
      destruct (Z.eqb_spec (po_item_id i) (rl_po_item_id it)) as [E|E].
      * cbn [quantity_received quantity_ordered].
        rewrite (NoDup_map_inj po_item_id _ i poItem Hnd Hi Hin ltac:(congruence)). lia.
      * rewrite Forall_forall in Hw. exact (Hw i Hi).
Qed.

(** X6.  When PO item ids are unique and no PO line holds more than was
    ordered, the same holds after any receiveGoods call, succeeded or
    failed. *)
Theorem receiveGoods_keeps_within_ordered (req : receipt_request) (s : db) :
  NoDup (map po_item_id (purchase_order_items s)) -> within_ordered s ->
  within_ordered (snd (receiveGoods req s)).
Proof.
  intros Hnd Hw. unfold receiveGoods.
  destruct (rc_items req); [exact Hw|].
  unfold transaction.
  destruct (receive_goods_tx req s) as [e|[a s2]] eqn:Etx; [exact Hw|]. cbn [snd].
  unfold receive_goods_tx in Etx. apply bind_ok in Etx as (u & s1 & Hrec & Hk).
  unfold bind, get, put in Hk. injection Hk as _ <-.
  apply (receive_items_within _ _ _ _ _ Hnd Hw) in Hrec as [Hw1 _]. exact Hw1.
Qed.

Lemma receiveGoods_keeps_within_ordered_witness :
  within_ordered (snd (receiveGoods receipt_same_as_X db_po)).
Proof.
  apply receiveGoods_keeps_within_ordered.
  - vm_compute. constructor; [intros []|constructor].
  - unfold within_ordered. vm_compute. constructor; [discriminate|constructor].
Defined.

(** X7.  A one-line receipt is accepted whenever its PO item is found under
    the order, the order row exists and the total received stays within the
    ordered quantity; nothing bounds the received quantity from below, so a
    zero or negative quantity is accepted too. *)
Theorem receiveGoods_single_line_accepted (poid : Z) (ln : receipt_line) (s : db)
    (i : po_item) (po : purchase_order) :
  find_po_item (rl_po_item_id ln) poid s = Some i ->
  find (fun p => po_id p =? poid) (purchase_orders s) = Some po ->
  quantity_received i + rl_quantity_received ln <= quantity_ordered i ->
  fst (receiveGoods (mkReceiptReq poid [ln]) s) = Okay poid.
Proof.
  intros Hf Hpo Hq. unfold receiveGoods. cbn [rc_items rc_po_id].
  unfold transaction, receive_goods_tx. cbn [rc_items rc_po_id receive_items].
  unfold bind at 1. unfold bind at 1, get at 1. rewrite Hf.
  destruct (Z.ltb_spec (quantity_ordered i) (quantity_received i + rl_quantity_received ln));
    [lia|].
  unfold bind at 1, update_po_item, bind at 1, get at 1, put at 1.
  unfold bind at 1, get at 1. cbn [purchase_orders set_po_items]. rewrite Hpo.
  reflexivity.
Qed.

Definition receipt_negative : receipt_line := mkReceiptLine 1 (-5) "N" "LN" 20000.

Lemma receiveGoods_single_line_accepted_witness :
  fst (receiveGoods (mkReceiptReq 1 [receipt_negative]) db_po) = Okay 1.
Proof.
  apply (receiveGoods_single_line_accepted 1 receipt_negative db_po
           (mkPOItem 1 1 1 20 0 1%Q "pending") (mkPO 1 7 "ordered")).
  - vm_compute. reflexivity.
  - vm_compute. reflexivity.
  - cbn. lia.
Defined.

(** Some line of order [poid] is marked received or partially received. *)
Definition has_received_line (poid : Z) (s : db) : Prop :=
  exists i, In i (purchase_order_items s) /\ poi_po_id i = poid
            /\ (poi_status i = "received" \/ poi_status i = "partially_received").

Lemma receive_items_marks (poid : Z) (l : list receipt_line) (s s1 : db) u :
  receive_items poid l s = inr (u, s1) ->
  purchase_orders s1 = purchase_orders s
  /\ (l <> [] \/ has_received_line poid s -> has_received_line poid s1)
  /\ (l <> [] -> exists po, find (fun p => po_id p =? poid) (purchase_orders s) = Some po).
Proof.
  revert s. induction l as [|it t IH]; intros s H.
  - simpl in H. injection H as _ <-. split; [reflexivity|].
    split; [intros [[]%(fun h => h eq_refl)|Hr]; exact Hr|]. intros []. reflexivity.
  - simpl in H. unfold bind at 1, get at 1 in H.
    destruct (find_po_item (rl_po_item_id it) poid s) as [poItem|] eqn:Hf; [|discriminate].
    destruct (quantity_ordered poItem <? _); [discriminate|].
    apply bind_ok in H as (u1 & s2 & Hupd & H).
    unfold update_po_item, bind, get, put in Hupd. injection Hupd as _ <-.
    unfold bind at 1, get at 1 in H.
    destruct (find _ (purchase_orders _)) as [po|] eqn:Hpo; [|discriminate].
    apply bind_ok in H as (u2 & s3 & Hins & H).
    unfold insert_inventory, bind, get, put in Hins. injection Hins as _ <-.
    apply IH in H as (Hpos & Hmark & _).
    cbn [purchase_orders set_po_items set_inventory] in Hpo, Hpos.
    split; [exact Hpos|]. split; [|intros _; exists po; first [exact Hpo | reflexivity]].
    intros _. apply Hmark. right.
    apply find_po_item_some in Hf as (Hin & Hid & Hpoid).
    eexists. cbn [purchase_order_items set_inventory set_po_items].
    split; [apply in_map; exact Hin|].
    rewrite Hid, Z.eqb_refl. cbn [poi_po_id poi_status]. split; [exact Hpoid|].
    destruct (_ =? _); [left|right]; reflexivity.
Qed.

Lemma count_status_pos (st : string) (l : list po_item) (i : po_item) :
  In i l -> poi_status i = st -> (0 < count_status st l)%nat.
Proof.
  intros Hin Hst. unfold count_status.
  assert (Hf : In i (filter (fun j => String.eqb (poi_status j) st) l))
    by (apply filter_In; split; [exact Hin|apply String.eqb_eq; exact Hst]).
  destruct (filter _ l); [destruct Hf|]. cbn. lia.
Qed.

(** X8.  After a receiveGoods call that succeeds, the order's row exists and
    its status is 'received' or 'partially_received', whatever it was
    before: the order's status is never checked, so a receipt also reopens
    a cancelled order. *)
Theorem receiveGoods_sets_received_status (req : receipt_request) (s s' : db) (x : Z) :
  receiveGoods req s = (Okay x, s') ->
  (exists po, In po (purchase_orders s') /\ po_id po = rc_po_id req)
  /\ forall po, In po (purchase_orders s') -> po_id po = rc_po_id req ->
       po_status po = "received" \/ po_status po = "partially_received".
Proof.
  unfold receiveGoods. intro H.
  destruct (rc_items req) as [|ln t] eqn:Hitems; [discriminate|].
  unfold transaction in H.
  destruct (receive_goods_tx req s) as [e|[a s2]] eqn:Etx; [discriminate|].
  injection H as _ <-.
  unfold receive_goods_tx in Etx. apply bind_ok in Etx as (u & s1 & Hrec & Hk).
  unfold bind, get, put in Hk. injection Hk as _ <-.
  rewrite Hitems in Hrec.
  apply receive_items_marks in Hrec as (Hpos & Hmark & Hfind).
  assert (Hne : ln :: t <> []) by discriminate.
  destruct (Hmark (or_introl Hne)) as (i & Hin & Hpoid & Hst).
  destruct (Hfind Hne) as [po Hpo].
  cbn [purchase_orders set_purchase_orders]. split.
  - apply find_some in Hpo as [Hpin Hpid]. apply Z.eqb_eq in Hpid.
    eexists. split; [apply in_map; rewrite Hpos; exact Hpin|].
    rewrite Hpid, Z.eqb_refl. reflexivity.
  - intros p Hp Hpid. apply in_map_iff in Hp as (p0 & <- & _).
    destruct (Z.eqb_spec (po_id p0) (rc_po_id req)) as [E|E]; [|contradiction].
    cbn [po_status].
    assert (Hmine : In i (filter (fun j => poi_po_id j =? rc_po_id req)
                                 (purchase_order_items s1)))
      by (apply filter_In; split; [exact Hin|apply Z.eqb_eq; exact Hpoid]).
    destruct (Nat.eqb _ _); [left; reflexivity|].
    destruct Hst as [Hst|Hst];
      [pose proof (count_status_pos "received" _ i Hmine Hst) as Hc
      |pose proof (count_status_pos "partially_received" _ i Hmine Hst) as Hc];
      apply Nat.ltb_lt in Hc; rewrite Hc; [rewrite orb_true_r|]; right; reflexivity.
Qed.

(** The order of [db_po], cancelled. *)
Definition db_po_cancelled : db :=
  mkDb [prodP] [batchX; batchY] [] [] []
       [mkPO 1 7 "cancelled"] [mkPOItem 1 1 1 20 0 1%Q "pending"].

Lemma receiveGoods_sets_received_status_witness :
  (exists po, In po (purchase_orders (snd (receiveGoods receipt_same_as_X db_po_cancelled)))
              /\ po_id po = 1)
  /\ forall po, In po (purchase_orders (snd (receiveGoods receipt_same_as_X db_po_cancelled))) ->
       po_id po = 1 -> po_status po = "received" \/ po_status po = "partially_received".
Proof.
  apply (receiveGoods_sets_received_status receipt_same_as_X db_po_cancelled
           (snd (receiveGoods receipt_same_as_X db_po_cancelled)) 1).
  vm_compute. reflexivity.
Defined.

(** ** AlertController (src/src/controllers/AlertController.js):
    generateExpirationAlerts, acknowledgeAlert, bulkAcknowledgeAlerts *)

(** A row of [expiration_alerts].  The controllers below read the inventory
    of a [db] and read and write this table, kept as its own list. *)
Record alert := mkAlert {
  alert_id : Z;
  al_inventory_id : Z;
  al_product_id : Z;
  al_batch_number : string;
  al_expiration_date : Z;
  al_quantity : Z;
  al_alert_type : string;
  alert_date : Z;
  is_acknowledged : bool;
  acknowledged_by : option Z;
  action_taken : option string
}.

(** A row of the generator's [SELECT DISTINCT]. *)
Record candidate := mkCand {
  c_inventory_id : Z;
  c_product_id : Z;
  c_batch_number : string;
  c_expiration_date : Z;
  c_quantity : Z;
  c_alert_type : option string
}.

Definition opt_string_eqb (x y : option string) : bool :=
  match x, y with
  | Some a, Some b => String.eqb a b
  | None, None => true
  | _, _ => false
  end.

Definition cand_eqb (x y : candidate) : bool :=
  (c_inventory_id x =? c_inventory_id y) && (c_product_id x =? c_product_id y)
  && String.eqb (c_batch_number x) (c_batch_number y)
  && (c_expiration_date x =? c_expiration_date y) && (c_quantity x =? c_quantity y)
  && opt_string_eqb (c_alert_type x) (c_alert_type y).

(** DISTINCT: the first row of each group of equal rows. *)
Fixpoint dedup_from (seen : list candidate) (l : list candidate) : list candidate :=
  match l with
  | [] => []
  | x :: t => if existsb (cand_eqb x) seen then dedup_from seen t
              else x :: dedup_from (x :: seen) t
  end.

(** [WHERE i.status = 'active' AND i.quantity_on_hand > 0
    AND i.expiration_date <= CURRENT_DATE + 90 AND NOT EXISTS (an alert with
    the same inventory_id, expiration_date and alert_type)]; expiration
    dates are never NULL here.  [ea.alert_type = CASE ...] is not true when
    the CASE is NULL. *)
Definition alert_matches (today : Z) (b : batch) (a : alert) : bool :=
  (al_inventory_id a =? inventory_id b) && (al_expiration_date a =? expiration_date b)
  && match alert_type (expiration_date b) today with
     | Some t => String.eqb (al_alert_type a) t
     | None => false
     end.

Definition alert_selects (today : Z) (alerts : list alert) (b : batch) : bool :=
  is_active (status b) && (0 <? quantity_on_hand b)
  && (expiration_date b <=? today + 90)
  && negb (existsb (alert_matches today b) alerts).

Definition to_cand (today : Z) (b : batch) : candidate :=
  mkCand (inventory_id b) (product_id b) (batch_number b) (expiration_date b)
         (quantity_on_hand b) (alert_type (expiration_date b) today).

Definition next_alert_id (alerts : list alert) : Z := Z.of_nat (List.length alerts) + 1.

(** The loop: [if (item.alert_type)] insert an unacknowledged alert dated
    today and count it. *)
Fixpoint insert_alerts (today : Z) (l : list candidate) (alerts : list alert)
    (alertsCreated : Z) : list alert * Z :=
  match l with
  | [] => (alerts, alertsCreated)
  | c :: t =>
      match c_alert_type c with
      | Some ty =>
          insert_alerts today t
            (alerts ++ [mkAlert (next_alert_id alerts) (c_inventory_id c) (c_product_id c)
                                (c_batch_number c) (c_expiration_date c) (c_quantity c)
                                ty today false None None])
            (alertsCreated + 1)
      | None => insert_alerts today t alerts alertsCreated
      end
  end.

(** Returns [alerts_created] and the new alert table. *)
Definition generateExpirationAlerts (today : Z) (s : db) (alerts : list alert)
  : Z * list alert :=
  let inventoryItems :=
    dedup_from [] (map (to_cand today) (filter (alert_selects today alerts) (inventory s))) in
  let '(alerts', n) := insert_alerts today inventoryItems alerts 0 in
  (n, alerts').

Definition acknowledge (acknowledged_by' : option Z) (action_taken' : option string)
    (a : alert) : alert :=
  mkAlert (alert_id a) (al_inventory_id a) (al_product_id a) (al_batch_number a)
          (al_expiration_date a) (al_quantity a) (al_alert_type a) (alert_date a)
          true acknowledged_by' action_taken'.

(** acknowledgeAlert, past the request validation: 404 for an unknown id,
    400 when already acknowledged, else [UPDATE ... WHERE alert_id = $3]. *)
Definition acknowledgeAlert (id : Z) (acknowledged_by' : option Z)
    (action_taken' : option string) (alerts : list alert) : response * list alert :=
  match find (fun a => alert_id a =? id) alerts with
  | None => (Failed 404 "Alert not found", alerts)
  | Some a =>
    if is_acknowledged a then (Failed 400 "Alert has already been acknowledged", alerts)
    else (Okay id, map (fun a => if alert_id a =? id
                                 then acknowledge acknowledged_by' action_taken' a else a)
                       alerts)
  end.

(** bulkAcknowledgeAlerts: [UPDATE ... WHERE alert_id = ANY($3)
    AND is_acknowledged = false RETURNING *]; the reply counts the rows. *)
Definition bulk_hit (alert_ids : list Z) (a : alert) : bool :=
  existsb (Z.eqb (alert_id a)) alert_ids && negb (is_acknowledged a).

Definition bulkAcknowledgeAlerts (alert_ids : list Z) (acknowledged_by' : option Z)
    (action_taken' : option string) (alerts : list alert) : response * list alert :=
  match alert_ids with
  | [] => (Failed 400 "Alert IDs array is required", alerts)
  | _ =>
    let result := filter (bulk_hit alert_ids) alerts in
    (Okay (Z.of_nat (List.length result)),
     map (fun a => if bulk_hit alert_ids a
                   then acknowledge acknowledged_by' action_taken' a else a) alerts)
  end.

Lemma cand_eqb_true (x y : candidate) : cand_eqb x y = true -> x = y.
Proof.
  destruct x as [a b c d e f], y as [a' b' c' d' e' f']. unfold cand_eqb. cbn.
  intro H. apply andb_prop in H as [H Hf].
  repeat (apply andb_prop in H as [H ?]).
  repeat match goal with
         | E : (_ =? _) = true |- _ => apply Z.eqb_eq in E
         | E : String.eqb _ _ = true |- _ => apply String.eqb_eq in E
         end.
  subst. f_equal.
  destruct f, f'; cbn in Hf; try discriminate; [apply String.eqb_eq in Hf; congruence|reflexivity].
Qed.

Lemma dedup_from_cover (seen l : list candidate) (x : candidate) :
  In x l -> In x seen \/ In x (dedup_from seen l).
Proof.
  revert seen. induction l as [|h t IH]; intros seen Hx; [destruct Hx|].
  cbn [dedup_from]. destruct Hx as [->|Hx].
  - destruct (existsb (cand_eqb x) seen) eqn:E.
    + left. apply existsb_exists in E as (y & Hy & Exy).
      apply cand_eqb_true in Exy. subst. exact Hy.
    + right. left. reflexivity.
  - destruct (existsb (cand_eqb h) seen) eqn:E.
    + apply IH. exact Hx.
    + destruct (IH (h :: seen) Hx) as [[<-|Hs]|Hin].
      * right. left. reflexivity.
      * left. exact Hs.
      * right. right. exact Hin.
Qed.

Lemma dedup_from_sub (seen l : list candidate) (x : candidate) :
  In x (dedup_from seen l) -> In x l.
Proof.
  revert seen. induction l as [|h t IH]; intros seen Hx; [destruct Hx|].
  cbn [dedup_from] in Hx. destruct (existsb (cand_eqb h) seen).
  - right. exact (IH _ Hx).
  - destruct Hx as [<-|Hx]; [left; reflexivity|right; exact (IH _ Hx)].
Qed.

(** Alert [a] is the one the insert loop writes for candidate row [c]. *)
Definition alert_of_cand (today : Z) (c : candidate) (a : alert) : Prop :=
  c_alert_type c = Some (al_alert_type a)
  /\ al_inventory_id a = c_inventory_id c /\ al_product_id a = c_product_id c
  /\ al_batch_number a = c_batch_number c
  /\ al_expiration_date a = c_expiration_date c /\ al_quantity a = c_quantity c
  /\ alert_date a = today /\ is_acknowledged a = false.

(** The insert loop keeps the old alerts as a prefix, adds one alert per
    candidate with a type (counted), and nothing else. *)
Lemma insert_alerts_run (today : Z) (l : list candidate) (alerts : list alert) (n : Z) :
  exists new,
    insert_alerts today l alerts n = ((alerts ++ new)%list, n + Z.of_nat (List.length new))
    /\ (forall a, In a new -> exists c, In c l /\ alert_of_cand today c a)
    /\ (forall c ty, In c l -> c_alert_type c = Some ty ->
          exists a, In a new /\ alert_of_cand today c a).
Proof.
  revert alerts n. induction l as [|c t IH]; intros alerts n.
  - exists []. rewrite app_nil_r, Z.add_0_r. split; [reflexivity|].
    split; intros; contradiction.
  - cbn [insert_alerts]. destruct (c_alert_type c) as [ty|] eqn:Ety.
    + destruct (IH (alerts ++ [mkAlert (next_alert_id alerts) (c_inventory_id c)
                    (c_product_id c) (c_batch_number c) (c_expiration_date c)
                    (c_quantity c) ty today false None None])%list (n + 1))
        as (new & Hrun & Hfrom & Hcov).
      assert (Hc : alert_of_cand today c
                     (mkAlert (next_alert_id alerts) (c_inventory_id c) (c_product_id c)
                        (c_batch_number c) (c_expiration_date c) (c_quantity c) ty today
                        false None None))
        by (unfold alert_of_cand; cbn; auto 10).
      exists (mkAlert (next_alert_id alerts) (c_inventory_id c) (c_product_id c)
                (c_batch_number c) (c_expiration_date c) (c_quantity c) ty today false
                None None :: new).
      rewrite Hrun. split.
      { rewrite <- app_assoc. cbn [app List.length]. f_equal. lia. }
      split.
      * intros a [<-|Ha].
        -- exists c. split; [left; reflexivity|exact Hc].
        -- destruct (Hfrom a Ha) as (c' & Hc' & Hrest). exists c'. split; [right|]; auto.
      * intros c' ty' [<-|Hc'] Ht.
        -- eexists. split; [left; reflexivity|exact Hc].
        -- destruct (Hcov c' ty' Hc' Ht) as (a & Ha & Hrest). exists a. split; [right|]; auto.
    + destruct (IH alerts n) as (new & Hrun & Hfrom & Hcov).
      exists new. rewrite Hrun. split; [reflexivity|]. split.
      * intros a Ha. destruct (Hfrom a Ha) as (c' & Hc' & Hrest).
        exists c'. split; [right|]; auto.
      * intros c' ty' [<-|Hc'] Ht; [congruence|]. exact (Hcov c' ty' Hc' Ht).
Qed.

Lemma alert_type_within (e today : Z) :
  e <= today + 90 -> exists t, alert_type e today = Some t.
Proof.
  intro H. unfold alert_type.
  destruct (e <? today); [eexists; reflexivity|].
  destruct (e <=? today + 30); [eexists; reflexivity|].
  destruct (e <=? today + 60); [eexists; reflexivity|].
  destruct (Z.leb_spec e (today + 90)); [eexists; reflexivity|lia].
Qed.

(** X9.  Running the alert generator a second time on the same day and the
    same inventory creates no alert and leaves the alert table as the first
    run left it. *)
Theorem generateExpirationAlerts_idempotent (today : Z) (s : db) (alerts : list alert) :
  let alerts' := snd (generateExpirationAlerts today s alerts) in
  generateExpirationAlerts today s alerts' = (0, alerts').
Proof.
  cbv zeta.
  pose (cands := dedup_from [] (map (to_cand today)
                   (filter (alert_selects today alerts) (inventory s)))).
  destruct (insert_alerts_run today cands alerts 0) as (new & Hrun & _ & Hcov).
  assert (E1 : snd (generateExpirationAlerts today s alerts) = (alerts ++ new)%list).
  { unfold generateExpirationAlerts. cbv zeta. change (dedup_from [] _) with cands.
    rewrite Hrun. reflexivity. }
  rewrite E1. unfold generateExpirationAlerts.
  assert (Hnone : forall b, In b (inventory s) ->
                   alert_selects today (alerts ++ new) b = false).
  { intros b Hb. unfold alert_selects. rewrite existsb_app.
    destruct (alert_selects today alerts b) eqn:Hsel.
    - assert (Hc : In (to_cand today b) cands).
      { destruct (dedup_from_cover []
                    (map (to_cand today) (filter (alert_selects today alerts) (inventory s)))
                    (to_cand today b)) as [[]|Hin]; [|exact Hin].
        apply in_map. apply filter_In. auto. }
      unfold alert_selects in Hsel. apply andb_prop in Hsel as [Hsel _].
      apply andb_prop in Hsel as [_ Hexp]. apply Z.leb_le in Hexp.
      destruct (alert_type_within _ _ Hexp) as [t Ht].
      destruct (Hcov (to_cand today b) t Hc Ht) as (a & Ha & Hty & Hid & _ & _ & Hex & _).
      assert (Hm : existsb (alert_matches today b) new = true).
      { apply existsb_exists. exists a. split; [exact Ha|].
        unfold alert_matches. cbn in Hid, Hex, Hty. rewrite Hid, Hex, Hty, !Z.eqb_refl.
        apply String.eqb_refl. }
      rewrite Hm, orb_true_r. rewrite !andb_false_r. reflexivity.
    - unfold alert_selects in Hsel.
      destruct (is_active (status b)), (0 <? quantity_on_hand b),
        (expiration_date b <=? today + 90), (existsb (alert_matches today b) alerts);
        cbn in *; congruence. }
  assert (Hfil : filter (alert_selects today (alerts ++ new)) (inventory s) = []).
  { revert Hnone. generalize (inventory s) as l.
    induction l as [|b t IH]; intro H; [reflexivity|]. cbn [filter].
    rewrite (H b (or_introl eq_refl)). apply IH. intros b' Hb'. apply H. right. exact Hb'. }
  rewrite Hfil. reflexivity.
Qed.

(** X10.  What the generator writes: the old alerts stay, followed by the new
    ones, and the reply counts the new ones.  Each new alert copies an
    active batch with stock on hand that expires within 90 days and has no
    alert yet (acknowledged or not) with the same inventory id, expiration
    date and alert type; it carries that type, today's date and is
    unacknowledged.  Every such batch gets one. *)
Theorem generateExpirationAlerts_creates (today : Z) (s : db) (alerts alerts' : list alert)
    (n : Z) :
  generateExpirationAlerts today s alerts = (n, alerts') ->
  exists new,
    alerts' = (alerts ++ new)%list /\ n = Z.of_nat (List.length new)
    /\ (forall a, In a new ->
          exists b, In b (inventory s) /\ alert_selects today alerts b = true
                    /\ alert_of_cand today (to_cand today b) a)
    /\ (forall b, In b (inventory s) -> alert_selects today alerts b = true ->
          exists a, In a new /\ alert_of_cand today (to_cand today b) a).
Proof.
  unfold generateExpirationAlerts. cbv zeta.
  destruct (insert_alerts_run today
              (dedup_from [] (map (to_cand today)
                                  (filter (alert_selects today alerts) (inventory s))))
              alerts 0) as (new & Hrun & Hfrom & Hcov).
  rewrite Hrun. intro H. injection H as <- <-.
  exists new. split; [reflexivity|]. split; [reflexivity|]. split.
  - intros a Ha. destruct (Hfrom a Ha) as (c & Hc & Hac).
    apply dedup_from_sub in Hc. apply in_map_iff in Hc as (b & <- & Hb).
    apply filter_In in Hb as [Hb Hsel]. exists b. auto.
  - intros b Hb Hsel.
    assert (Hc : In (to_cand today b)
                   (dedup_from [] (map (to_cand today)
                                       (filter (alert_selects today alerts) (inventory s))))).
    { destruct (dedup_from_cover []
                  (map (to_cand today) (filter (alert_selects today alerts) (inventory s)))
                  (to_cand today b)) as [[]|Hin]; [|exact Hin].
      apply in_map. apply filter_In. auto. }
    unfold alert_selects in Hsel. apply andb_prop in Hsel as [Hsel _].
    apply andb_prop in Hsel as [_ Hexp]. apply Z.leb_le in Hexp.
    destruct (alert_type_within _ _ Hexp) as [t Ht].
    exact (Hcov (to_cand today b) t Hc Ht).
Qed.

Lemma generateExpirationAlerts_creates_witness :
  exists new,
    snd (generateExpirationAlerts 19700 db_XY []) = ([] ++ new)%list
    /\ fst (generateExpirationAlerts 19700 db_XY []) = Z.of_nat (List.length new)
    /\ List.length new = 1%nat.
Proof.
  destruct (generateExpirationAlerts_creates 19700 db_XY []
              (snd (generateExpirationAlerts 19700 db_XY []))
              (fst (generateExpirationAlerts 19700 db_XY [])))
    as (new & H1 & H2 & _); [vm_compute; reflexivity|].
  exists new. split; [exact H1|]. split; [exact H2|].
  cbn [app] in H1. rewrite <- H1. vm_compute. reflexivity.
Defined.

Lemma existsb_Zeqb_In (x : Z) (l : list Z) : existsb (Z.eqb x) l = true <-> In x l.
Proof.
  rewrite existsb_exists. split.
  - intros (y & Hy & E). apply Z.eqb_eq in E. subst. exact Hy.
  - intro H. exists x. split; [exact H|apply Z.eqb_refl].
Qed.

(** X11.  After a bulk acknowledgement that succeeds, every alert whose id
    was listed is acknowledged, alerts that were already acknowledged or
    not listed are left exactly as they were, and repeating the call (by
    anyone, with any action) acknowledges nothing and changes nothing. *)
Theorem bulkAcknowledgeAlerts_once (alert_ids : list Z) (by_ : option Z)
    (act : option string) (alerts alerts' : list alert) (n : Z) :
  bulkAcknowledgeAlerts alert_ids by_ act alerts = (Okay n, alerts') ->
  (forall a, In a alerts' -> In (alert_id a) alert_ids -> is_acknowledged a = true)
  /\ Forall2 (fun a a' => is_acknowledged a = true \/ ~ In (alert_id a) alert_ids -> a' = a)
             alerts alerts'
  /\ forall by' act', bulkAcknowledgeAlerts alert_ids by' act' alerts' = (Okay 0, alerts').
Proof.
  unfold bulkAcknowledgeAlerts. destruct alert_ids as [|i ids] eqn:Hids; [discriminate|].
  rewrite <- Hids. intro H. injection H as _ <-.
  assert (Hnohit : forall a', In a' (map (fun a => if bulk_hit alert_ids a
                                                   then acknowledge by_ act a else a) alerts) ->
                              bulk_hit alert_ids a' = false).
  { intros a' Ha'. apply in_map_iff in Ha' as (a & <- & _).
    destruct (bulk_hit alert_ids a) eqn:Hh.
    - unfold bulk_hit at 1. cbn [acknowledge is_acknowledged negb]. apply andb_false_r.
    - exact Hh. }
  split; [|split].
  - intros a' Ha' Hin. apply in_map_iff in Ha' as (a & <- & _).
    destruct (bulk_hit alert_ids a) eqn:Hh; [reflexivity|].
    unfold bulk_hit in Hh. apply existsb_Zeqb_In in Hin. rewrite Hin in Hh.
    destruct (is_acknowledged a); [reflexivity|discriminate].
  - induction alerts as [|a t IH]; cbn [map]; constructor.
    + intros [Hack|Hnot]; unfold bulk_hit.
      * rewrite Hack, andb_false_r. reflexivity.
      * destruct (existsb (Z.eqb (alert_id a)) alert_ids) eqn:E; [|reflexivity].
        apply existsb_Zeqb_In in E. contradiction.
    + apply IH. intros a' Ha'. apply Hnohit. right. exact Ha'.
  - intros by' act'. rewrite Hids. rewrite <- Hids.
    assert (Hf : filter (bulk_hit alert_ids)
                   (map (fun a => if bulk_hit alert_ids a then acknowledge by_ act a else a)
                        alerts) = []).
    { revert Hnohit. generalize (map (fun a => if bulk_hit alert_ids a
                                               then acknowledge by_ act a else a) alerts).
      intros l Hl. induction l as [|x t IH]; [reflexivity|]. cbn [filter].
      rewrite (Hl x (or_introl eq_refl)). apply IH. intros y Hy. apply Hl. right. exact Hy. }
    rewrite Hf. f_equal. rewrite <- (map_id (map _ alerts)) at 2.
    apply map_ext_in. intros a' Ha'. rewrite (Hnohit a' Ha'). reflexivity.
Qed.

Definition alert_pair : list alert :=
  [mkAlert 1 1 1 "X" 19723 10 "30_days" 19700 false None None;
   mkAlert 2 2 1 "Y" 19875 10 "90_days" 19790 true (Some 4) (Some "moved to front")].

Lemma bulkAcknowledgeAlerts_once_witness :
  bulkAcknowledgeAlerts [1; 2] (Some 5) (Some "recount")
    (snd (bulkAcknowledgeAlerts [1; 2] (Some 3) None alert_pair))
  = (Okay 0, snd (bulkAcknowledgeAlerts [1; 2] (Some 3) None alert_pair)).
Proof.
  destruct (bulkAcknowledgeAlerts_once [1; 2] (Some 3) None alert_pair
              (snd (bulkAcknowledgeAlerts [1; 2] (Some 3) None alert_pair)) 1)
    as (_ & _ & H); [vm_compute; reflexivity|].
  exact (H (Some 5) (Some "recount")).
Defined.

Lemma find_map_alerts (P : alert -> bool) (f : alert -> alert) (l : list alert) :
  (forall a, P (f a) = P a) -> find P (map f l) = option_map f (find P l).
Proof.
  intro HP. induction l as [|a t IH]; [reflexivity|]. cbn [map find].
  rewrite HP. destruct (P a); [reflexivity|exact IH].
Qed.

(** X12.  Once acknowledgeAlert has acknowledged an alert, a second call
    for the same id is refused with 400 and changes nothing. *)
Theorem acknowledgeAlert_twice_refused (id : Z) (by_ by' : option Z)
    (act act' : option string) (alerts alerts' : list alert) (x : Z) :
  acknowledgeAlert id by_ act alerts = (Okay x, alerts') ->
  acknowledgeAlert id by' act' alerts'
  = (Failed 400 "Alert has already been acknowledged", alerts').
Proof.
  unfold acknowledgeAlert at 1.
  destruct (find (fun a => alert_id a =? id) alerts) as [a|] eqn:Hf; [|discriminate].
  destruct (is_acknowledged a); [discriminate|]. intro H. injection H as _ <-.
  unfold acknowledgeAlert.
  rewrite find_map_alerts.
  - rewrite Hf. cbn [option_map].
    apply find_some in Hf as [_ Hid]. rewrite Hid. reflexivity.
  - intro b. destruct (alert_id b =? id) eqn:E; exact E.
Qed.

Lemma acknowledgeAlert_twice_refused_witness :
  acknowledgeAlert 1 (Some 5) None (snd (acknowledgeAlert 1 (Some 3) None alert_pair))
  = (Failed 400 "Alert has already been acknowledged",
     snd (acknowledgeAlert 1 (Some 3) None alert_pair)).
Proof.
  apply (acknowledgeAlert_twice_refused 1 (Some 3) (Some 5) None None alert_pair
           (snd (acknowledgeAlert 1 (Some 3) None alert_pair)) 1).
  vm_compute. reflexivity.
Defined.

(** ** PurchaseOrderController: updatePurchaseOrderStatus and
    cancelPurchaseOrder (src/src/controllers/PurchaseOrderController.js).
    Only the status column is kept; the notes and updated_at columns these
    UPDATEs also write are not part of the [purchase_order] rows here. *)

Definition validStatuses : list string :=
  ["pending"; "ordered"; "partially_received"; "received"; "cancelled"].

(** [UPDATE purchase_orders SET status = $1 ... WHERE po_id = $3]. *)
Definition set_po_status (id : Z) (st : string) (s : db) : db :=
  set_purchase_orders
    (map (fun po => if po_id po =? id then mkPO (po_id po) (po_supplier_id po) st else po)
         (purchase_orders s)) s.

Definition updatePurchaseOrderStatus (id : Z) (status : option string) (s : db)
  : response * db :=
  match status with
  | Some st =>
    if existsb (String.eqb st) validStatuses then
      let s' := set_po_status id st s in
      if existsb (fun po => po_id po =? id) (purchase_orders s) then (Okay id, s')
      else (Failed 404 "Purchase order not found", s')
    else (Failed 400 "Invalid status", s)
  | None => (Failed 400 "Invalid status", s)
  end.


Lemma find_set_po_status (id : Z) (st : string) (s : db) :
  find (fun po => po_id po =? id) (purchase_orders (set_po_status id st s))
  = option_map (fun po => mkPO (po_id po) (po_supplier_id po) st)
               (find (fun po => po_id po =? id) (purchase_orders s)).
Proof.
  unfold set_po_status. cbn [purchase_orders set_purchase_orders].
  induction (purchase_orders s) as [|po t IH]; [reflexivity|]. cbn [map find].
  destruct (po_id po =? id) eqn:E; cbn [po_id]; rewrite E; [reflexivity|exact IH].
Qed.

Lemma set_po_status_rows (id : Z) (st : string) (s : db) (p : purchase_order) :
  In p (purchase_orders (set_po_status id st s)) -> po_id p = id -> po_status p = st.
Proof.
  unfold set_po_status. cbn [purchase_orders set_purchase_orders].
  intros Hp Hid. apply in_map_iff in Hp as (p0 & <- & _).
  destruct (Z.eqb_spec (po_id p0) id) as [E|E]; [reflexivity|contradiction].
Qed.


(** X14.  updatePurchaseOrderStatus checks only that the new status is one
    of the five names and that the order exists: any order, whatever its
    current status (received or cancelled included), takes the new status
    on every row, so a received or cancelled order can be set back to
    pending. *)
Theorem updatePurchaseOrderStatus_no_transition_check (id : Z) (st : string) (s : db)
    (po : purchase_order) :
  In po (purchase_orders s) -> po_id po = id -> In st validStatuses ->
  updatePurchaseOrderStatus id (Some st) s = (Okay id, set_po_status id st s)
  /\ (forall p, In p (purchase_orders (set_po_status id st s)) -> po_id p = id ->
        po_status p = st).
Proof.
  intros Hpo Hid Hst. split.
  - unfold updatePurchaseOrderStatus.
    assert (Hv : existsb (String.eqb st) validStatuses = true).
    { apply existsb_exists. exists st. split; [exact Hst|apply String.eqb_refl]. }
    assert (He : existsb (fun po => po_id po =? id) (purchase_orders s) = true).
    { apply existsb_exists. exists po. split; [exact Hpo|apply Z.eqb_eq; exact Hid]. }
    rewrite Hv, He. reflexivity.
  - apply set_po_status_rows.
Qed.

(** The order of [db_po], marked received. *)
Definition db_po_received : db :=
  mkDb [prodP] [batchX; batchY] [] [] []
       [mkPO 1 7 "received"] [mkPOItem 1 1 1 20 20 1%Q "received"].

Lemma updatePurchaseOrderStatus_no_transition_check_witness :
  updatePurchaseOrderStatus 1 (Some "pending") db_po_received
  = (Okay 1, set_po_status 1 "pending" db_po_received)
  /\ purchase_orders (set_po_status 1 "pending" db_po_received) = [mkPO 1 7 "pending"].
Proof.
  destruct (updatePurchaseOrderStatus_no_transition_check 1 "pending" db_po_received
              (mkPO 1 7 "received")) as (H1 & _).
  - left. reflexivity.
  - reflexivity.
  - left. reflexivity.
  - split; [exact H1|]. reflexivity.
Defined.

(** ** ReportController.getExpirationReport (src/unnamed/part_000) *)

(** The extra WHERE conditions of the [urgencyLevel] switch; an absent,
    empty or unknown level adds none. *)
Definition urgency_condition (urgencyLevel : option string) (today e : Z) : bool :=
  match urgencyLevel with
  | None => true
  | Some u =>
    if String.eqb u "expired" then e <? today
    else if String.eqb u "critical" then (today <=? e) && (e <=? today + 30)
    else if String.eqb u "warning" then (today + 30 <? e) && (e <=? today + 60)
    else if String.eqb u "watch" then today + 60 <? e
    else true
  end.


(** [p.category_id = c] is false on a NULL category. *)
Definition category_ok (cat : option Z) (p : product) : bool :=
  match cat, p_category_id p with
  | None, _ => true
  | Some c, Some k => k =? c
  | Some _, None => false
  end.

(** The selected rows, in table order: [inventory i JOIN products p WHERE
    i.status = 'active' AND i.quantity_on_hand > 0 AND i.expiration_date <=
    CURRENT_DATE + days], the urgency conditions and the category condition;
    [days] is [parseInt(days)].  The LEFT JOINs on categories and suppliers
    keep every row. *)
Definition expiration_rows (days : Z) (urgencyLevel : option string) (cat : option Z)
    (today : Z) (s : db) : list batch :=
  filter (fun b => existsb (fun p => (p_product_id p =? product_id b) && category_ok cat p)
                           (products s)
                   && is_active (status b) && (0 <? quantity_on_hand b)
                   && (expiration_date b <=? today + days)
                   && urgency_condition urgencyLevel today (expiration_date b))
         (inventory s).










Definition urgency_levels : list string := ["expired"; "critical"; "warning"; "watch"].

Lemma urgency_condition_case (u : string) (today e : Z) :
  In u urgency_levels ->
  urgency_condition (Some u) today e = String.eqb (urgency_level e today) u.
Proof.
  intro Hu. unfold urgency_condition, urgency_level.
  destruct Hu as [<-|[<-|[<-|[<-|[]]]]]; cbn [String.eqb Ascii.eqb Bool.eqb];
    destruct (Z.ltb_spec e today), (Z.leb_spec (e - today) 30),
      (Z.leb_spec (e - today) 60), (Z.leb_spec today e), (Z.leb_spec e (today + 30)),
      (Z.ltb_spec (today + 30) e), (Z.leb_spec e (today + 60)), (Z.ltb_spec (today + 60) e);
    cbn; try reflexivity; lia.
Qed.

(** X15.  For each of the four urgency levels, a batch is selected by the
    report filtered by that level exactly when the unfiltered report (same
    days and category) selects it and its computed urgency_level column is
    that level. *)
Theorem expiration_rows_level_filter (days : Z) (u : string) (cat : option Z) (today : Z)
    (s : db) (b : batch) :
  In u urgency_levels ->
  In b (expiration_rows days (Some u) cat today s)
  <-> In b (expiration_rows days None cat today s)
      /\ urgency_level (expiration_date b) today = u.
Proof.
  intro Hu. unfold expiration_rows. rewrite !filter_In.
  rewrite (urgency_condition_case u today (expiration_date b) Hu).
  change (urgency_condition None today (expiration_date b)) with true. rewrite andb_true_r.
  rewrite !andb_true_iff, String.eqb_eq. tauto.
Qed.

Lemma expiration_rows_level_filter_witness :
  In batchY (expiration_rows 365 (Some "watch") (Some 3) 19700 db_XY)
  <-> In batchY (expiration_rows 365 None (Some 3) 19700 db_XY)
      /\ urgency_level (expiration_date batchY) 19700 = "watch".
Proof.
  apply expiration_rows_level_filter. right. right. right. left. reflexivity.
Defined.



(** ** processRefund and createSale: what a success writes *)

(** X17.  A one-line refund that succeeds found the sale line, refunded no
    more than it sold, added the refunded units to on_hand of every row of
    the line's batch and appended one 'return' movement per such row, whose
    before and after quantities are the old and the new on_hand. *)
Theorem processRefund_one_line_restocks (sid : Z) (ri : refund_line) (amt : option Q)
    (s s' : db) (x : Z) :
  processRefund (mkRefundReq sid [ri] amt) s = (Okay x, s') ->
  exists it,
    find_sale_item (saleItemId ri) sid s = Some it
    /\ quantityToRefund ri <= si_quantity it
    /\ inventory s'
       = map (fun b => if inventory_id b =? si_inventory_id it
                       then with_on_hand (quantity_on_hand b + quantityToRefund ri) b else b)
             (inventory s)
    /\ stock_movements s'
       = (stock_movements s
          ++ map (fun b => mkMovement (si_inventory_id it) (si_product_id it) "return"
                             (quantityToRefund ri) (quantity_on_hand b)
                             (quantity_on_hand b + quantityToRefund ri) sid "sale_refund")
                 (filter (fun b => inventory_id b =? si_inventory_id it) (inventory s)))%list.
Proof.
  unfold processRefund. cbn [r_items]. unfold transaction. intro H.
  destruct (process_refund_tx _ s) as [e|[y s2]] eqn:Etx; [discriminate|].
  injection H as _ <-.
  unfold process_refund_tx, bind at 1, get at 1 in Etx. cbn [r_saleId r_items] in Etx.
  destruct (find_completed_sale sid s) as [sl|]; [|discriminate].
  apply bind_ok in Etx as (total & s3 & Hri & Hk).
  destruct (truthy_Q _ && payment_mismatch _ _); [discriminate|].
  apply bind_ok in Hk as (u & s4 & Hupd & Hret).
  unfold ret in Hret. injection Hret as _ <-.
  unfold update_sale_status, bind, get, put in Hupd. injection Hupd as _ <-.
  cbn [refund_items] in Hri. unfold bind at 1, get at 1 in Hri.
  destruct (find_sale_item (saleItemId ri) sid s) as [it|] eqn:Hit; [|discriminate].
  destruct (si_quantity it <? quantityToRefund ri) eqn:Elt; [discriminate|].
  apply Z.ltb_ge in Elt.
  apply bind_ok in Hri as (u1 & s5 & Hu & Hri). rewrite update_inventory_run in Hu.
  injection Hu as _ <-.
  apply bind_ok in Hri as (u2 & s6 & Hm & Hri).
  unfold insert_return_movements, bind, get, put in Hm. injection Hm as _ <-.
  unfold ret in Hri. injection Hri as _ <-.
  exists it. split; [reflexivity|]. split; [lia|]. split; [reflexivity|].
  cbn [stock_movements inventory set_sales set_movements set_inventory]. f_equal.
  induction (inventory s) as [|b t IH]; [reflexivity|].
  cbn [map filter]. destruct (inventory_id b =? si_inventory_id it) eqn:E.
  - cbn [inventory_id with_on_hand]. rewrite E. cbn [map]. rewrite IH. f_equal.
    f_equal; destruct b; unfold with_on_hand; cbn; lia.
  - rewrite E. exact IH.
Qed.

Lemma processRefund_one_line_restocks_witness :
  exists it,
    find_sale_item 1 1 db_sold = Some it
    /\ quantityToRefund (mkRefundLine 1 4) <= si_quantity it
    /\ inventory db_refunded
       = map (fun b => if inventory_id b =? si_inventory_id it
                       then with_on_hand (quantity_on_hand b + 4) b else b)
             (inventory db_sold)
    /\ stock_movements db_refunded
       = (stock_movements db_sold
          ++ map (fun b => mkMovement (si_inventory_id it) (si_product_id it) "return" 4
                             (quantity_on_hand b) (quantity_on_hand b + 4) 1 "sale_refund")
                 (filter (fun b => inventory_id b =? si_inventory_id it) (inventory db_sold)))%list.
Proof.
  apply (processRefund_one_line_restocks 1 (mkRefundLine 1 4) None db_sold db_refunded 1).
  vm_compute. reflexivity.
Defined.








(** ** createSale: the batch that serves each line *)

(** The inventory as the item loop sees it once the processed items [l]
    have been reserved. *)
Definition res_items (l : list processed_item) (inv : list batch) : list batch :=
  map (fun x => with_reserved (quantity_reserved x + qty_for (inventory_id x) l) x) inv.

(** The inventory of [s] with the units of the sale_items rows [rows]
    counted as reserved. *)
Definition reserved_by (rows : list sale_item) (s : db) : list batch :=
  map (fun x => with_reserved (quantity_reserved x + sold_from (inventory_id x) rows) x)
      (inventory s).

(** Batch [id] is the FIFO choice for [qty] units of product [pid] in [inv]:
    an active batch of the product whose available quantity alone covers
    [qty], expiring no later than any other such batch. *)
Definition fifo_choice (pid qty : Z) (inv : list batch) (id : Z) : Prop :=
  exists b, In b inv /\ inventory_id b = id /\ fifo_eligible pid qty b = true
    /\ forall b', In b' inv -> fifo_eligible pid qty b' = true ->
                  expiration_date b <= expiration_date b'.

Lemma res_items_nil (inv : list batch) : res_items [] inv = inv.
Proof.
  unfold res_items. induction inv as [|b t IH]; [reflexivity|]. cbn [map]. rewrite IH.
  f_equal. destruct b. unfold with_reserved. cbn. f_equal. lia.
Qed.

Lemma res_items_cons (pi : processed_item) (l : list processed_item) (inv : list batch) :
  res_items l (map (fun x => if inventory_id x =? pi_inventoryId pi
                             then with_reserved (quantity_reserved x + pi_quantity pi) x
                             else x) inv)
  = res_items (pi :: l) inv.
Proof.
  unfold res_items. rewrite map_map. apply map_ext. intro b.
  cbn [qty_for fold_right]. fold (qty_for (inventory_id b) l).
  destruct (inventory_id b =? pi_inventoryId pi); destruct b;
    unfold with_reserved; cbn; f_equal; lia.
Qed.

Lemma select_fifo_choice (pid qty : Z) (s : db) (b : batch) :
  select_fifo pid qty s = Some b -> fifo_choice pid qty (inventory s) (inventory_id b).
Proof.
  intro H. apply select_fifo_spec in H as (Hin & Hel & Hmin).
  exists b. auto.
Qed.

Lemma process_item_pos (rx : option string) (it : sale_line) (s s1 : db) r :
  process_item rx it s = inr (r, s1) -> 0 < quantity it.
Proof.
  unfold process_item. destruct ((productId it =? 0) || (quantity it <=? 0)) eqn:E;
    [discriminate|].
  intros _. apply orb_false_iff in E as [_ E]. apply Z.leb_gt in E. exact E.
Qed.

(** The item loop, line by line: line [k] with no pinned batch gets the
    FIFO choice in the inventory where lines [0..k-1] are reserved. *)
Lemma process_items_lines (rx : option string) (l : list sale_line) (sub tax : Q)
    (acc : list processed_item) (s s1 : db) sub' tax' out :
  process_items rx l sub tax acc s = inr ((sub', tax', out), s1) ->
  exists new, out = (acc ++ new)%list
    /\ Forall (fun pi => 0 < pi_quantity pi) new
    /\ forall k it pi, nth_error l k = Some it -> nth_error new k = Some pi ->
         truthy_id (inventoryId it) = false ->
         fifo_choice (productId it) (quantity it) (res_items (firstn k new) (inventory s))
                     (pi_inventoryId pi).
Proof.
  revert sub tax acc s. induction l as [|it t IH]; intros sub tax acc s H.
  - simpl in H. injection H as _ _ <- _. exists []. split; [symmetry; apply app_nil_r|].
    split; [constructor|]. intros k ? ? E. destruct k; discriminate E.
  - simpl in H. apply bind_ok in H as ([[pi lt] tx] & s0 & Hi & H).
    pose proof (process_item_pos _ _ _ _ _ Hi) as Hpos.
    pose proof Hi as Hi'. apply process_item_run in Hi' as [(_ & Hq & _) Hs0].
    apply IH in H as (new & -> & Hall & Hk).
    exists (pi :: new). split; [rewrite <- app_assoc; reflexivity|]. split.
    + constructor; [lia|exact Hall].
    + intros [|k] it' pi' E1 E2 Hpin; cbn in E1, E2.
      * injection E1 as <-. injection E2 as <-. rewrite res_items_nil.
        destruct (process_item_fifo _ _ _ _ _ Hpin Hi) as (b & Hsel & Hid & _).
        cbn in Hid. rewrite Hid. apply select_fifo_choice. exact Hsel.
      * specialize (Hk k it' pi' E1 E2 Hpin). subst s0.
        cbn [inventory set_inventory] in Hk. rewrite <- Hq in Hk.
        rewrite res_items_cons in Hk. exact Hk.
Qed.

Lemma forall2_len {A B} (R : A -> B -> Prop) (l1 : list A) (l2 : list B) :
  Forall2 R l1 l2 -> List.length l1 = List.length l2.
Proof. induction 1; cbn; congruence. Qed.

Lemma forall2_nth_both {A B} (R : A -> B -> Prop) (l1 : list A) (l2 : list B) k a b :
  Forall2 R l1 l2 -> nth_error l1 k = Some a -> nth_error l2 k = Some b -> R a b.
Proof.
  intro H. revert k. induction H as [|x y l1' l2' Hxy _ IH]; intros [|k] E1 E2;
    cbn in E1, E2; try discriminate.
  - injection E1 as <-. injection E2 as <-. exact Hxy.
  - exact (IH k E1 E2).
Qed.

Lemma forall2_nth_l {A B} (R : A -> B -> Prop) (l1 : list A) (l2 : list B) k a :
  Forall2 R l1 l2 -> nth_error l1 k = Some a -> exists b, nth_error l2 k = Some b /\ R a b.
Proof.
  intro H. revert k. induction H as [|x y l1' l2' Hxy _ IH]; intros [|k] E;
    cbn in E |- *; try discriminate.
  - injection E as <-. exists y. auto.
  - exact (IH k E).
Qed.

Lemma forall2_nth_r {A B} (R : A -> B -> Prop) (l1 : list A) (l2 : list B) k b :
  Forall2 R l1 l2 -> nth_error l2 k = Some b -> exists a, nth_error l1 k = Some a /\ R a b.
Proof.
  intro H. revert k. induction H as [|x y l1' l2' Hxy _ IH]; intros [|k] E;
    cbn in E |- *; try discriminate.
  - injection E as <-. exists x. auto.
  - exact (IH k E).
Qed.

Lemma forall2_firstn {A B} (R : A -> B -> Prop) (l1 : list A) (l2 : list B) k :
  Forall2 R l1 l2 -> Forall2 R (firstn k l1) (firstn k l2).
Proof.
  intro H. revert k. induction H as [|x y l1' l2' Hxy _ IH]; intros [|k]; cbn;
    constructor; auto.
Qed.

Lemma qty_for_firstn_nonneg (id : Z) (l : list processed_item) (k : nat) :
  Forall (fun pi => 0 < pi_quantity pi) l -> 0 <= qty_for id (firstn k l).
Proof.
  intro H. revert k. induction H as [|pi t Hpi _ IH]; intros [|k];
    cbn [firstn qty_for fold_right]; try lia.
  fold (qty_for id (firstn k t)). specialize (IH k).
  destruct (id =? pi_inventoryId pi); lia.
Qed.

Lemma fifo_eligible_reserved (pid qty d : Z) (b : batch) :
  0 <= d -> fifo_eligible pid qty (with_reserved (quantity_reserved b + d) b) = true ->
  fifo_eligible pid qty b = true.
Proof.
  intros Hd. unfold fifo_eligible, quantity_available. destruct b.
  unfold with_reserved. cbn. intro H. apply andb_prop in H as [H1 H2]. rewrite H1.
  cbn. apply Z.leb_le in H2. apply Z.leb_le. lia.
Qed.

Lemma createSale_outcome (req : sale_request) (s : db) :
  (exists sid s', createSale req s = (Created sid, s'))
  \/ exists e, createSale req s = (Failed 400 e, s).
Proof.
  unfold createSale. destruct (items req); [right; eexists; reflexivity|].
  destruct (negb (truthy_str (paymentMethod req))); [right; eexists; reflexivity|].
  destruct (negb (existsb _ valid_payment_methods)); [right; eexists; reflexivity|].
  destruct (transaction (create_sale_tx req) s) as [[e|sid] s'] eqn:E.
  - right. exists e. rewrite (transaction_rollback _ _ _ _ E). reflexivity.
  - left. exists sid, s'. reflexivity.
Qed.

(** A successful createSale with the processed items of its item loop. *)
Lemma createSale_lines (req : sale_request) (s s' : db) (sid : Z) :
  createSale req s = (Created sid, s') ->
  exists new rows,
    sale_items s' = (sale_items s ++ rows)%list
    /\ Forall2 (fun pi row => si_sale_id row = sid /\ si_product_id row = pi_productId pi
                              /\ si_inventory_id row = pi_inventoryId pi
                              /\ si_quantity row = pi_quantity pi) new rows
    /\ Forall2 (line_ok s) (items req) new
    /\ Forall (fun pi => 0 < pi_quantity pi) new
    /\ (forall k it pi, nth_error (items req) k = Some it -> nth_error new k = Some pi ->
          truthy_id (inventoryId it) = false ->
          fifo_choice (productId it) (quantity it) (res_items (firstn k new) (inventory s))
                      (pi_inventoryId pi))
    /\ inventory s'
       = map (fun b => with_on_hand (quantity_on_hand b - sold_from (inventory_id b) rows) b)
             (inventory s).
Proof.
  intro H. unfold createSale in H.
  destruct (items req) as [|it0 t0] eqn:Hitems; [discriminate|].
  destruct (negb (truthy_str (paymentMethod req))); [discriminate|].
  destruct (negb (existsb _ valid_payment_methods)); [discriminate|].
  unfold transaction in H.
  destruct (create_sale_tx req s) as [e|[a s2]] eqn:Etx; [discriminate|].
  injection H as <- <-.
  unfold create_sale_tx in Etx. apply bind_ok in Etx as ([[sub tax] out] & s1 & Hp & Hk).
  rewrite Hitems in Hp. pose proof Hp as Hp'.
  apply process_items_run in Hp as (new & Hout & Hall & ->).
  apply process_items_lines in Hp' as (new' & Hout' & Hpos & Hfifo).
  rewrite Hout in Hout'. cbn [app] in Hout, Hout'. subst out new'.
  cbv beta iota in Hk.
  destruct (payments_mismatch _ _ _); [discriminate|].
  unfold bind at 1, get at 1 in Hk. unfold bind at 1, put at 1 in Hk.
  apply bind_ok in Hk as (u & s3 & Hins & Hret).
  unfold ret in Hret. injection Hret as <- <-.
  apply insert_sale_items_run in Hins as (rows & Hsi & Hrows & Hinv).
  exists new, rows. split; [exact Hsi|]. split; [exact Hrows|]. split; [exact Hall|].
  split; [exact Hpos|]. split; [exact Hfifo|].
  rewrite Hinv. cbn [inventory set_inventory set_sales].
  rewrite map_map. apply map_ext. intro b.
  rewrite (sold_from_rows _ _ _ _ Hrows).
  destruct b. unfold with_reserved, with_on_hand. cbn. f_equal. lia.
Qed.

(** C1 (amended).  With no pinned batch, createSale serves each sale line
    whole from a single batch, for a sale with any number of lines.  When
    the sale succeeds it appends one sale_items row per line, in order; the
    row of an unpinned line [k] carries the line's quantity and names the
    earliest-expiring active batch of the product whose available quantity
    (on_hand minus reserved, the units of lines [0..k-1] counted as
    reserved) alone covers the line; every batch's on_hand drops by exactly
    the units of the rows that name it.  There is no spillover: if no
    active batch of the product alone covers an unpinned line, the sale
    fails with 400 and the store is unchanged. *)
Theorem C1_sale_line_served_by_one_earliest_batch (req : sale_request) (s : db) :
  (forall s' sid, createSale req s = (Created sid, s') ->
     exists rows,
       sale_items s' = (sale_items s ++ rows)%list
       /\ List.length rows = List.length (items req)
       /\ inventory s'
          = map (fun b => with_on_hand (quantity_on_hand b - sold_from (inventory_id b) rows) b)
                (inventory s)
       /\ forall k it row, nth_error (items req) k = Some it -> nth_error rows k = Some row ->
            truthy_id (inventoryId it) = false ->
            si_quantity row = quantity it
            /\ fifo_choice (productId it) (quantity it) (reserved_by (firstn k rows) s)
                           (si_inventory_id row))
  /\ (forall it, In it (items req) -> truthy_id (inventoryId it) = false ->
        (forall b, In b (inventory s) -> fifo_eligible (productId it) (quantity it) b = false) ->
        exists e, createSale req s = (Failed 400 e, s)).
Proof.
  split.
  - intros s' sid H.
    destruct (createSale_lines req s s' sid H)
      as (new & rows & Hsi & Hrows & Hall & _ & Hfifo & Hinv).
    exists rows. split; [exact Hsi|]. split.
    + rewrite <- (forall2_len _ _ _ Hrows). symmetry. exact (forall2_len _ _ _ Hall).
    + split; [exact Hinv|].
      intros k it row E1 E2 Hpin.
      destruct (forall2_nth_r _ _ _ _ _ Hrows E2) as (pi & E3 & (_ & _ & Hid & Hq)).
      destruct (forall2_nth_both _ _ _ _ _ _ Hall E1 E3) as (_ & Hq' & _).
      split; [congruence|].
      assert (Er : reserved_by (firstn k rows) s = res_items (firstn k new) (inventory s)).
      { unfold reserved_by, res_items. apply map_ext. intro b.
        rewrite (sold_from_rows sid _ _ _ (forall2_firstn _ _ _ k Hrows)). reflexivity. }
      rewrite Er, Hid. exact (Hfifo k it pi E1 E3 Hpin).
  - intros it Hin Hpin Hnone.
    destruct (createSale_outcome req s) as [(sid & s' & H)|He]; [|exact He].
    exfalso.
    destruct (createSale_lines req s s' sid H)
      as (new & rows & _ & _ & Hall & Hpos & Hfifo & _).
    apply In_nth_error in Hin as (k & E1).
    destruct (forall2_nth_l _ _ _ _ _ Hall E1) as (pi & E2 & _).
    destruct (Hfifo k it pi E1 E2 Hpin) as (b' & Hb' & _ & Hel & _).
    unfold res_items in Hb'. apply in_map_iff in Hb' as (b & <- & Hb).
    apply fifo_eligible_reserved in Hel; [|apply qty_for_firstn_nonneg; exact Hpos].
    rewrite (Hnone b Hb) in Hel. discriminate.
Qed.

(** In the two-line sale, line 2 (4 units, no pinned batch) is served from
    batch X, the FIFO choice once line 1's 3 units of Y are reserved; a sale
    of 15 units with X = 10 and Y = 10 fails and changes nothing. *)
Lemma C1_sale_line_served_by_one_earliest_batch_witness :
  (exists row, nth_error (sale_items db_two) 1 = Some row
     /\ si_inventory_id row = 1 /\ si_quantity row = 4
     /\ fifo_choice 1 4 (reserved_by (firstn 1 (sale_items db_two)) db_XY) 1)
  /\ exists e, createSale (cash_sale [line 1 15 None] 15%Q) db_XY = (Failed 400 e, db_XY).
Proof.
  split.
  - destruct (C1_sale_line_served_by_one_earliest_batch two_line_sale db_XY) as [Hs _].
    destruct (Hs db_two 1) as (rows & Hsi & _ & _ & Hk); [vm_compute; reflexivity|].
    cbn [sale_items db_XY app] in Hsi. rewrite Hsi.
    destruct (nth_error rows 1) as [row|] eqn:E;
      [|rewrite <- Hsi in E; vm_compute in E; discriminate].
    destruct (Hk 1%nat (line 1 4 None) row eq_refl E eq_refl) as [Hq Hf].
    assert (Hid : si_inventory_id row = 1).
    { rewrite <- Hsi in E. vm_compute in E. injection E as <-. reflexivity. }
    exists row. split; [reflexivity|]. split; [exact Hid|]. split; [exact Hq|].
    rewrite Hid in Hf. exact Hf.
  - destruct (C1_sale_line_served_by_one_earliest_batch (cash_sale [line 1 15 None] 15%Q) db_XY)
      as [_ Hf].
    apply (Hf (line 1 15 None)); [left; reflexivity|reflexivity|].
    intros b Hb. cbn in Hb. destruct Hb as [<-|[<-|[]]]; reflexivity.
Defined.
